(** * Veo 3 prompt generator: the behaviour of [src/App.js]

    The React component [App] holds ten form fields and four status fields,
    assembles an instruction string from the form fields ([generatePrompt],
    lines 44-110), sends it to the generative-language endpoint with one
    [fetch], and copies the answer to the clipboard ([copyToClipboard],
    lines 116-132).

    The embedding is shallow.  Strings are Rocq strings, read as the UTF-8
    bytes of the JavaScript strings.  Values that come back from
    [response.json()] are JavaScript values ([Js.value]); the conversions the
    host engine performs on numbers are an interface ([Js.Engine]).  The two
    functions are written in a small monad that records, in program order,
    every effect the code performs and carries a thrown error to the
    enclosing [catch]; the answers of the outside world (the network, the
    clipboard command) are arguments. *)

From Stdlib Require Import String Ascii List Bool Arith NArith ZArith Lia.
From Stdlib Require Import DecimalString.
From ExtLib Require Import Structures.Monad Structures.MonadExc.
Import ListNotations.
Import MonadNotation.

Set Warnings "-register-all".

Local Open Scope list_scope.
Local Open Scope string_scope.
Local Open Scope monad_scope.

(* ===================================================================== *)
(** * Text: template literals and substring search                        *)
(* ===================================================================== *)

Module Text.

(** Line feed, as it stands inside the template literal of lines 52-69. *)
Definition nl : string := String "010"%char EmptyString.

(** The double quote character. *)
Definition dq : string := String "034"%char EmptyString.

(** The eight blanks that indent every line of the template literal. *)
Definition indent : string := "        ".

(** A template literal is the concatenation of its chunks. *)
Definition join (chunks : list string) : string :=
  fold_right append "" chunks.

(** [needle] occurs in [hay]. *)
Definition infix (needle hay : string) : Prop :=
  exists before after, hay = before ++ needle ++ after.

(** [String.prototype.includes], the executable form of [infix]. *)
Fixpoint includes (needle hay : string) : bool :=
  prefix needle hay ||
  match hay with
  | EmptyString => false
  | String _ rest => includes needle rest
  end.

(** [String.prototype.endsWith]. *)
Definition ends_with (suffix s : string) : Prop :=
  exists before, s = before ++ suffix.

(** A string is truthy when it is not empty. *)
Definition nonempty (s : string) : bool :=
  match s with
  | EmptyString => false
  | String _ _ => true
  end.

(** [a || b] on two strings. *)
Definition or_else (a b : string) : string :=
  if nonempty a then a else b.

(** [String(n)] for a non-negative integer, in decimal. *)
Definition decimal (n : N) : string :=
  NilEmpty.string_of_uint (N.to_uint n).

End Text.

(* ===================================================================== *)
(** * The form fields and the instruction string (lines 6-15, 52-69)      *)
(* ===================================================================== *)

Module Form.
Import Text.

(** The ten [useState] fields of lines 6-15.  Each holds a string: the
    initial values are string literals and every setter is called with
    [e.target.value]. *)
Record Params : Type := mkParams {
  sceneDescription : string;
  subjectFocus : string;
  cameraMovements : string;
  visualStyle : string;
  timeOfDay : string;
  genre : string;
  lightingConditions : string;
  additionalKeywords : string;
  textToSpeech : string;
  videoFormat : string
}.

(** The initial values of lines 6-15. *)
Definition initial : Params :=
  mkParams "" "" "" "" "Day" "Sci-fi" "Soft" "" "" "landscape".

(** The fallback phrases of lines 55-63. *)
Definition fallback_sceneDescription : string :=
  "A captivating and dynamic scene".
Definition fallback_subjectFocus : string :=
  "A central, engaging figure or object".
Definition fallback_cameraMovements : string :=
  "Sophisticated and fluid camera work (e.g., cinematic tracking shot, slow push-in, dynamic drone view)".
Definition fallback_visualStyle : string :=
  "A visually stunning and coherent artistic style (e.g., hyperrealistic, fantastical, neo-noir, intricate anime)".
Definition fallback_lightingConditions : string :=
  "Artful and evocative lighting".
Definition fallback_additionalKeywords : string :=
  "Incorporate rich textures, vibrant colors, atmospheric effects (e.g., volumetric fog, lens flares), detailed reflections, high fidelity, 8K, highly detailed, photorealistic render".
Definition no_dialogue : string :=
  "No spoken dialogue specified.".

(** The inner template literal of line 63. *)
Definition dialogue_instruction (speech : string) : string :=
  join ["Integrate the following dialogue naturally into the video concept: ";
        dq; speech; dq].

(** Line 63: [textToSpeech ? `...` : 'No spoken dialogue specified.']. *)
Definition speech_clause (speech : string) : string :=
  if nonempty speech then dialogue_instruction speech else no_dialogue.

(** [promptText], lines 52-69, chunk by chunk. *)
Definition promptText (p : Params) : string :=
  join [
    "Generate a highly creative, detailed, and visually rich text prompt for an AI video generator like Veo 3. The prompt should aim for maximum video quality and artistic expression, incorporating all specified elements."; nl;
    nl;
    indent; "Here are the inputs:"; nl;
    indent; "- Scene Description: ";
      or_else (sceneDescription p) fallback_sceneDescription; nl;
    indent; "- Subject Focus: ";
      or_else (subjectFocus p) fallback_subjectFocus; nl;
    indent; "- Camera Movements: ";
      or_else (cameraMovements p) fallback_cameraMovements; nl;
    indent; "- Visual Style: ";
      or_else (visualStyle p) fallback_visualStyle; nl;
    indent; "- Time of Day: "; timeOfDay p; nl;
    indent; "- Genre: "; genre p; nl;
    indent; "- Lighting Conditions: ";
      or_else (lightingConditions p) fallback_lightingConditions; nl;
    indent; "- Additional Keywords: ";
      or_else (additionalKeywords p) fallback_additionalKeywords; nl;
    indent; "- Text-to-Speech: "; speech_clause (textToSpeech p); nl;
    indent; "- Video Format: "; videoFormat p; nl;
    nl;
    indent; "The final prompt should be a concise yet powerful single sentence or short paragraph, directly usable for a video generation model. It should focus on actionable visual and auditory elements, camera direction, and overall mood. Prioritize visual fidelity and artistic depth."; nl;
    nl;
    indent; "Example output format: "; dq;
      "A majestic golden dragon soaring gracefully through a swirling nebula, seen from a sweeping cinematic drone shot, in a fantastical and ethereal style. Time of Day: Night, Genre: Fantasy, Lighting: Dramatic. Incorporate glowing particles and shimmering stardust, 8K. Text-to-speech: 'Witness the ancient power!' Video Format: landscape.";
      dq; nl;
    indent ].

(** The field [value], or [fallback] when the field is empty, stands in
    [text], in the line that [label] starts. *)
Definition substituted (label value fallback text : string) : Prop :=
  (value <> "" ->
     infix value text /\ infix (label ++ value ++ nl) text) /\
  (value = "" ->
     infix fallback text /\ infix (label ++ fallback ++ nl) text).

End Form.

(* ===================================================================== *)
(** * JavaScript values, as [response.json()] returns them                *)
(* ===================================================================== *)

Module Js.
Import Text.

(** What the host engine does with numbers.  App.js reads a number only
    through [x.length > 0], through the truth test of [a && b] and
    [a || b], and through string conversion inside a template literal, so the
    engine is those observations; [string_gt0 s] is [s > 0], the comparison
    after the engine's conversion of [s] to a number. *)
Class Engine : Type := {
  number : Type;
  number_of_nat : nat -> number;
  number_truthy : number -> bool;
  number_gt0 : number -> bool;
  number_to_string : number -> string;
  string_gt0 : string -> bool;
  number_gt0_of_nat : forall n, number_gt0 (number_of_nat n) = (0 <? n)%nat
}.

(** A thrown [Error] object; the code reads only its [message]. *)
Inductive exn : Type :=
| Error (message : string).

Definition message (e : exn) : string :=
  match e with Error m => m end.

(** The outcome of an expression: a value, or a thrown error. *)
Inductive result (A : Type) : Type :=
| Ok (a : A)
| Throw (e : exn).
Arguments Ok {A} a.
Arguments Throw {A} e.

#[global] Instance Monad_result : Monad result := {
  ret := fun _ a => Ok a;
  bind := fun _ _ c k => match c with Ok a => k a | Throw e => Throw e end
}.

(** A property key: [x.name] or [x[i]]. *)
Inductive key : Type :=
| Named (name : string)
| Index (i : nat).

(** The property name a key stands for on an ordinary object. *)
Definition key_name (k : key) : string :=
  match k with
  | Named name => name
  | Index i => decimal (N.of_nat i)
  end.

(** The sixteen lower-case hexadecimal digits. *)
Definition hex_digit (n : nat) : string :=
  String (nth n ["0"; "1"; "2"; "3"; "4"; "5"; "6"; "7"; "8"; "9";
                 "a"; "b"; "c"; "d"; "e"; "f"]%char "0"%char) EmptyString.

(** [JSON.stringify] on one character of a string: the quote, the
    backslash and the control characters are escaped. *)
Definition json_escape (c : ascii) : string :=
  let n := nat_of_ascii c in
  if (n =? 34)%nat then "\" ++ dq
  else if (n =? 92)%nat then "\\"
  else if (n =? 8)%nat then "\b"
  else if (n =? 9)%nat then "\t"
  else if (n =? 10)%nat then "\n"
  else if (n =? 12)%nat then "\f"
  else if (n =? 13)%nat then "\r"
  else if (n <? 32)%nat then "\u00" ++ hex_digit (n / 16) ++ hex_digit (n mod 16)
  else String c EmptyString.

(** [JSON.stringify] on a string. *)
Fixpoint json_escape_all (s : string) : string :=
  match s with
  | EmptyString => ""
  | String c rest => json_escape c ++ json_escape_all rest
  end.

Definition json_quote (s : string) : string :=
  dq ++ json_escape_all s ++ dq.

Section Values.
Context {E : Engine}.

(** A JavaScript value built by [JSON.parse], or [undefined].  An object is
    the list of its own properties, one binding for each name. *)
Inductive value : Type :=
| VUndefined
| VNull
| VBool (b : bool)
| VNum (n : number)
| VStr (s : string)
| VArr (items : list value)
| VObj (props : list (string * value)).

(** The own property [name] of an object, if it has one. *)
Fixpoint own_property (name : string) (props : list (string * value))
  : option value :=
  match props with
  | [] => None
  | (k, v) :: rest => if String.eqb k name then Some v else own_property name rest
  end.

(** The truth test of [if], [&&], [||] and [?:]. *)
Definition truthy (v : value) : bool :=
  match v with
  | VUndefined | VNull => false
  | VBool b => b
  | VNum n => number_truthy n
  | VStr s => nonempty s
  | VArr _ | VObj _ => true
  end.

(** The error of a property read on [null] or [undefined], in the wording
    of V8; no property below depends on the words. *)
Definition cannot_read (base : string) (k : key) : exn :=
  Error (join ["Cannot read properties of "; base; " (reading '";
               key_name k; "')"]).

(** The engine's wording for an object that has no primitive form. *)
Definition cannot_convert : exn :=
  Error "Cannot convert object to primitive value".

(** [v.name] and [v[i]].  A read on [null] or [undefined] throws a
    TypeError.  A name must be one that no built-in prototype defines and
    that is no array index, as is every name App.js reads (candidates,
    content, parts, text, error, message); [length] is the one built-in. *)
Definition get (v : value) (k : key) : result value :=
  match v with
  | VUndefined => Throw (cannot_read "undefined" k)
  | VNull => Throw (cannot_read "null" k)
  | VBool _ | VNum _ => Ok VUndefined
  | VStr s =>
      match k with
      | Named name =>
          if String.eqb name "length"
          then Ok (VNum (number_of_nat (String.length s)))
          else Ok VUndefined
      | Index i =>
          match String.get i s with
          | Some c => Ok (VStr (String c EmptyString))
          | None => Ok VUndefined
          end
      end
  | VArr items =>
      match k with
      | Named name =>
          if String.eqb name "length"
          then Ok (VNum (number_of_nat (List.length items)))
          else Ok VUndefined
      | Index i => Ok (nth i items VUndefined)
      end
  | VObj props =>
      match own_property (key_name k) props with
      | Some x => Ok x
      | None => Ok VUndefined
      end
  end.

(** [v?.name]: [undefined] when [v] is [null] or [undefined]. *)
Definition get_optional (v : value) (k : key) : result value :=
  match v with
  | VUndefined | VNull => Ok VUndefined
  | _ => get v k
  end.

(** A chain of reads, [v.a.b[i]...]. *)
Fixpoint path (v : value) (keys : list key) : result value :=
  match keys with
  | [] => Ok v
  | k :: rest => x <- get v k ;; path x rest
  end.

(** String conversion, as a template literal and a DOM string attribute
    perform it.  An array joins its items with commas, [null] and
    [undefined] items as the empty string.  An object parsed from JSON
    converts to "[object Object]" unless it has an own property toString,
    which is then no function: the conversion throws a TypeError. *)
Fixpoint to_string (v : value) : result string :=
  match v with
  | VUndefined => Ok "undefined"
  | VNull => Ok "null"
  | VBool true => Ok "true"
  | VBool false => Ok "false"
  | VNum n => Ok (number_to_string n)
  | VStr s => Ok s
  | VArr items =>
      (fix join_items (l : list value) : result string :=
         match l with
         | [] => Ok ""
         | x :: rest =>
             match
               match x with
               | VUndefined | VNull => Ok ""
               | _ => to_string x
               end
             with
             | Throw e => Throw e
             | Ok sx =>
                 match rest with
                 | [] => Ok sx
                 | _ :: _ =>
                     match join_items rest with
                     | Throw e => Throw e
                     | Ok sr => Ok (sx ++ "," ++ sr)
                     end
                 end
             end
         end) items
  | VObj props =>
      match own_property "toString" props with
      | Some _ => Throw cannot_convert
      | None => Ok "[object Object]"
      end
  end.

(** [v > 0]: the primitive form of [v], converted to a number, compared. *)
Definition gt_zero (v : value) : result bool :=
  match v with
  | VUndefined | VNull => Ok false
  | VBool b => Ok b
  | VNum n => Ok (number_gt0 n)
  | VStr s => Ok (string_gt0 s)
  | VArr _ | VObj _ => s <- to_string v ;; ret (string_gt0 s)
  end.

(** [a && b] with [b] evaluated only when [a] is truthy. *)
Definition and_then (a b : result value) : result value :=
  x <- a ;; if truthy x then b else ret x.

(** [a || b] with [b] evaluated only when [a] is falsy. *)
Definition or_else_value (a b : result value) : result value :=
  x <- a ;; if truthy x then ret x else b.

End Values.

End Js.

(* ===================================================================== *)
(** * The component: state, effects, and its two functions               *)
(* ===================================================================== *)

Module App.
Import Text Js Form.

(** The request payload of lines 74-77:
    [{ contents: [{ role, parts: [{ text }] }] }]. *)
Record Part : Type := mkPart { text : string }.
Record Content : Type := mkContent { role : string; parts : list Part }.
Record Payload : Type := mkPayload { contents : list Content }.

(** [JSON.stringify] on an array, given the text of each item. *)
Definition stringify_array {A : Type} (item : A -> string) (l : list A)
  : string :=
  "[" ++ String.concat "," (map item l) ++ "]".

(** [JSON.stringify(payload)], line 85: the members of each object in the
    order in which the object literal lists them. *)
Definition stringify_part (p : Part) : string :=
  "{" ++ json_quote "text" ++ ":" ++ json_quote (text p) ++ "}".

Definition stringify_content (c : Content) : string :=
  "{" ++ json_quote "role" ++ ":" ++ json_quote (role c) ++ ","
      ++ json_quote "parts" ++ ":" ++ stringify_array stringify_part (parts c)
      ++ "}".

Definition JSON_stringify (p : Payload) : string :=
  "{" ++ json_quote "contents" ++ ":"
      ++ stringify_array stringify_content (contents p) ++ "}".

(** The second argument of [fetch], lines 83-85. *)
Record RequestInit : Type := mkInit {
  method : string;
  headers : list (string * string);
  body : string
}.

(** A DOM element made by [document.createElement]: its identity, its tag
    and its [value]. *)
Record node : Type := mkNode {
  node_id : nat;
  tag : string;
  node_value : string
}.

(** What [document.execCommand] did: it returned, or it threw. *)
Inductive command_outcome : Type :=
| Returned (supported : bool)
| Threw (e : exn).

Section Component.
Context {E : Engine}.

(** The four status fields of lines 18-21. *)
Record State : Type := mkState {
  generatedPrompt : value;
  isLoading : bool;
  error : string;
  copyMessage : string
}.

(** Their initial values. *)
Definition initial_state : State :=
  mkState (VStr "") false "" "".

(** A call of one of the four state setters. *)
Inductive setter : Type :=
| SetGeneratedPrompt (v : value)
| SetIsLoading (b : bool)
| SetError (m : string)
| SetCopyMessage (m : string).

(** The effects of the two functions, in the order the code performs
    them. *)
Inductive event : Type :=
| Call (s : setter)
| Fetch (url : string) (init : RequestInit)
| ReadJson
| ConsoleError (label : string) (e : exn)
| CreateElement (n : node)
| AppendChild (n : node)
| Select (n : node)
| ExecCommand (command : string)
| RemoveChild (n : node)
| SetTimeout (callback : setter) (delay : N).

(** What [response.json()] settles to. *)
Inductive json_outcome : Type :=
| Parsed (v : value)
| Unparsed (e : exn).

(** The fields of a [Response] that the code reads. *)
Record Response : Type := mkResponse {
  ok : bool;
  status : N;
  statusText : string;
  json_body : json_outcome
}.

(** What the promise of [fetch] settles to. *)
Inductive fetch_outcome : Type :=
| Resolved (r : Response)
| Rejected (e : exn).

(** A computation: the effects performed so far, and a value or a thrown
    error. *)
Definition M (A : Type) : Type := (list event * result A)%type.

#[global] Instance Monad_M : Monad M := {
  ret := fun _ a => ([], Ok a);
  bind := fun _ _ c k =>
    match c with
    | (t, Ok a) => let (t', r) := k a in ((t ++ t')%list, r)
    | (t, Throw e) => (t, Throw e)
    end
}.

(** The effects of a computation. *)
Definition trace {A : Type} (c : M A) : list event := fst c.

Definition emit (e : event) : M unit := ([e], Ok tt).

(** An expression without effects, inside a computation. *)
Definition lift {A : Type} (r : result A) : M A := ([], r).

Definition throw {A : Type} (e : exn) : M A := ([], Throw e).

(** [try { body } catch (err) { handler } finally { final }]. *)
Definition try_catch_finally {A : Type}
  (body : M A) (handler : exn -> M A) (final : M unit) : M A :=
  let caught : M A :=
    match body with
    | (t, Ok a) => (t, Ok a)
    | (t, Throw e) => let (t', r) := handler e in ((t ++ t')%list, r)
    end in
  match caught, final with
  | (t, r), (t', Ok _) => ((t ++ t')%list, r)
  | (t, _), (t', Throw e) => ((t ++ t')%list, Throw e)
  end.

(** [try { body } catch (err) { handler }]. *)
Definition try_catch {A : Type} (body : M A) (handler : exn -> M A) : M A :=
  match body with
  | (t, Ok a) => (t, Ok a)
  | (t, Throw e) => let (t', r) := handler e in ((t ++ t')%list, r)
  end.

(** [await fetch(url, init)]. *)
Definition fetch (url : string) (init : RequestInit) (net : fetch_outcome)
  : M Response :=
  emit (Fetch url init) ;;
  match net with
  | Resolved r => ret r
  | Rejected e => throw e
  end.

(** [await response.json()]. *)
Definition json (r : Response) : M value :=
  emit ReadJson ;;
  match json_body r with
  | Parsed v => ret v
  | Unparsed e => throw e
  end.

(** [x.length > 0] as a value. *)
Definition length_gt0 (x : result value) : result value :=
  v <- x ;; l <- get v (Named "length") ;; b <- gt_zero l ;; ret (VBool b).

Local Notation "a &&& b" := (and_then a b) (at level 40, left associativity).

(** The test of lines 96-98. *)
Definition has_valid_content (result : value) : Js.result bool :=
  c <- path result [Named "candidates"]
       &&& length_gt0 (path result [Named "candidates"])
       &&& path result [Named "candidates"; Index 0; Named "content"]
       &&& path result [Named "candidates"; Index 0; Named "content";
                        Named "parts"]
       &&& length_gt0 (path result [Named "candidates"; Index 0;
                                    Named "content"; Named "parts"]) ;;
  ret (truthy c).

(** Line 99: [result.candidates[0].content.parts[0].text]. *)
Definition first_text (result : value) : Js.result value :=
  path result [Named "candidates"; Index 0; Named "content"; Named "parts";
               Index 0; Named "text"].

(** Line 91: [errorData?.error?.message || 'Unknown error'], converted to
    a string by the template literal. *)
Definition server_message (errorData : value) : Js.result string :=
  m <- or_else_value
         (e <- get_optional errorData (Named "error") ;;
          get_optional e (Named "message"))
         (ret (VStr "Unknown error")) ;;
  to_string m.

(** The template literal of line 91. *)
Definition api_error (r : Response) (server : string) : exn :=
  Error (join ["API error: "; decimal (status r); " "; statusText r; " - ";
               server]).

Definition no_valid_content : string :=
  "Failed to generate prompt: No valid content from API.".

(** The template literal of line 79, with the empty [apiKey] of line 78. *)
Definition apiUrl : string :=
  let apiKey := "" in
  "https://generativelanguage.googleapis.com/v1beta/models/gemini-2.0-flash:generateContent?key=" ++ apiKey.

(** The request of lines 73-86 for an instruction string. *)
Definition payload_of (promptText : string) : Payload :=
  let chatHistory := [] in
  let chatHistory :=
    (chatHistory ++ [mkContent "user" [mkPart promptText]])%list in
  mkPayload chatHistory.

Definition request_init (promptText : string) : RequestInit :=
  mkInit "POST" [("Content-Type", "application/json")]
         (JSON_stringify (payload_of promptText)).

(** [generatePrompt], lines 44-110.  [p] is the form as the render that
    created the function saw it; [net] is what the network does. *)
Definition generatePrompt (p : Params) (net : fetch_outcome) : M unit :=
  emit (Call (SetGeneratedPrompt (VStr ""))) ;;
  emit (Call (SetError "")) ;;
  emit (Call (SetCopyMessage "")) ;;
  emit (Call (SetIsLoading true)) ;;
  let promptText := Form.promptText p in
  try_catch_finally
    (response <- fetch apiUrl (request_init promptText) net ;;
     if negb (ok response) then
       errorData <- json response ;;
       server <- lift (server_message errorData) ;;
       throw (api_error response server)
     else
       result <- json response ;;
       valid <- lift (has_valid_content result) ;;
       if (valid : bool) then
         text <- lift (first_text result) ;;
         emit (Call (SetGeneratedPrompt text))
       else
         emit (Call (SetError no_valid_content)))
    (fun err =>
       emit (ConsoleError "Error generating prompt:" err) ;;
       emit (Call (SetError ("Error generating prompt: " ++ message err))))
    (emit (Call (SetIsLoading false))).

(** [copyToClipboard], lines 116-132.  [generatedPrompt] is the state as
    the render saw it, [fresh] the identity of the element that
    [createElement] makes, [copy] what [execCommand] does. *)
Definition copyToClipboard
  (generatedPrompt : value) (fresh : nat) (copy : command_outcome) : M unit :=
  if truthy generatedPrompt then
    try_catch
      (let textArea := mkNode fresh "textarea" "" in
       emit (CreateElement textArea) ;;
       v <- lift (to_string generatedPrompt) ;;
       let textArea := mkNode (node_id textArea) (tag textArea) v in
       emit (AppendChild textArea) ;;
       emit (Select textArea) ;;
       emit (ExecCommand "copy") ;;
       match copy with
       | Returned _ => ret tt
       | Threw e => throw e
       end ;;
       emit (RemoveChild textArea) ;;
       emit (Call (SetCopyMessage "Prompt disalin!")) ;;
       emit (SetTimeout (SetCopyMessage "") 3000))
      (fun err =>
         emit (ConsoleError "Gagal menyalin:" err) ;;
         emit (Call (SetCopyMessage "Gagal menyalin prompt.")))
  else ret tt.

(** The four setter calls of lines 46-49. *)
Definition opening : list event :=
  [Call (SetGeneratedPrompt (VStr ""));
   Call (SetError "");
   Call (SetCopyMessage "");
   Call (SetIsLoading true)].

(** The two effects of the [catch] block, lines 105-106. *)
Definition caught (err : exn) : list event :=
  [ConsoleError "Error generating prompt:" err;
   Call (SetError ("Error generating prompt: " ++ message err))].

(** The effect of the [finally] block, line 108. *)
Definition closing : event := Call (SetIsLoading false).

(** The one network call of a submission. *)
Definition the_fetch (p : Params) : event :=
  Fetch apiUrl (request_init (promptText p)).

(** The error that line 91 throws, or the one its template literal
    raises while converting the server's message. *)
Definition thrown_at_91 (r : Response) (errorData : value) : exn :=
  match server_message errorData with
  | Ok server => api_error r server
  | Throw e => e
  end.

(** What lines 96-103 do with the parsed body of an [ok] response. *)
Definition settled_ok (result : value) : list event :=
  match has_valid_content result with
  | Ok true =>
      match first_text result with
      | Ok text => [Call (SetGeneratedPrompt text)]
      | Throw e => caught e
      end
  | Ok false => [Call (SetError no_valid_content)]
  | Throw e => caught e
  end.

(** ** The page the effects act on *)

(** The status fields, the children of [document.body], and the pending
    timers (delay in milliseconds, callback). *)
Record World : Type := mkWorld {
  app : State;
  children : list node;
  timers : list (N * setter)
}.

(** A state setter replaces one field. *)
Definition apply_setter (s : setter) (st : State) : State :=
  match s with
  | SetGeneratedPrompt v =>
      mkState v (isLoading st) (error st) (copyMessage st)
  | SetIsLoading b =>
      mkState (generatedPrompt st) b (error st) (copyMessage st)
  | SetError m =>
      mkState (generatedPrompt st) (isLoading st) m (copyMessage st)
  | SetCopyMessage m =>
      mkState (generatedPrompt st) (isLoading st) (error st) m
  end.

(** [removeChild]: the child with that identity leaves the list. *)
Definition remove_node (n : node) (l : list node) : list node :=
  filter (fun c => negb (node_id c =? node_id n)%nat) l.

(** The page after one effect. *)
Definition step (w : World) (e : event) : World :=
  match e with
  | Call s => mkWorld (apply_setter s (app w)) (children w) (timers w)
  | AppendChild n => mkWorld (app w) (children w ++ [n])%list (timers w)
  | RemoveChild n => mkWorld (app w) (remove_node n (children w)) (timers w)
  | SetTimeout callback delay =>
      mkWorld (app w) (children w) (timers w ++ [(delay, callback)])%list
  | Fetch _ _ | ReadJson | ConsoleError _ _ | CreateElement _ | Select _
  | ExecCommand _ => w
  end.

(** The page after a run of effects. *)
Definition run (t : list event) (w : World) : World :=
  fold_left step t w.

(** The submission status of the spec's data model, as the render reads it
    from the status fields: the button is busy while [isLoading] (JSX line
    331), the error banner shows a truthy [error] (line 181), the output
    area a truthy [generatedPrompt] (line 345). *)
Inductive Status : Type :=
| Idle
| InFlight
| Succeeded (output : value)
| Failed (reason : string).

Definition status_of (st : State) : Status :=
  if isLoading st then InFlight
  else if nonempty (error st) then Failed (error st)
  else if truthy (generatedPrompt st) then Succeeded (generatedPrompt st)
  else Idle.

(** An effect that is no call of [setIsLoading]. *)
Definition keeps_busy (e : event) : bool :=
  match e with
  | Call (SetIsLoading _) => false
  | _ => true
  end.

(** An effect that sets a timer. *)
Definition is_timer (e : event) : bool :=
  match e with
  | SetTimeout _ _ => true
  | _ => false
  end.

(** An effect that is a [fetch]. *)
Definition is_fetch (e : event) : bool :=
  match e with
  | Fetch _ _ => true
  | _ => false
  end.

(** An effect that leaves the busy flag alone and is no network call. *)
Definition quiet (e : event) : Prop :=
  keeps_busy e = true /\ is_fetch e = false.

(** An effect that leaves the busy flag alone. *)
Definition calm (e : event) : Prop := keeps_busy e = true.

(** The temporary element of lines 119-120. *)
Definition textarea (fresh : nat) (content : string) : node :=
  mkNode fresh "textarea" content.

(** The body has the member [error.message], and it is [m]: the body is
    an object whose [error] is an object whose own property [message] is
    [m]. *)
Definition error_message_is (errorData m : value) : Prop :=
  exists props inner,
    errorData = VObj props /\
    own_property "error" props = Some (VObj inner) /\
    own_property "message" inner = Some m.

(** The body has an [error.message] member. *)
Definition has_error_message (errorData : value) : Prop :=
  exists m, error_message_is errorData m.

(** ** Shapes of a response body *)

(** [part] is the first content part of the first candidate of [result]:
    [result.candidates] is a list whose head is an object, the [content]
    of that object is an object, and its [parts] is a list whose head is
    [part]. *)
Definition first_part (result part : value) : Prop :=
  exists props cprops cs kprops ps,
    result = VObj props /\
    own_property "candidates" props = Some (VArr (VObj cprops :: cs)) /\
    own_property "content" cprops = Some (VObj kprops) /\
    own_property "parts" kprops = Some (VArr (part :: ps)).

(** The first content part of the first candidate is an object with the
    member [text]. *)
Definition first_part_text (result text : value) : Prop :=
  exists tprops,
    first_part result (VObj tprops) /\
    own_property "text" tprops = Some text.

(** ** What a response body holds, read by its shape *)

(** The member [name] of a value that is not [null]: an own property of an
    object, [undefined] on anything else.  [name] is none of the names a
    built-in prototype defines. *)
Definition named (name : string) (v : value) : value :=
  match v with
  | VObj props =>
      match own_property name props with
      | Some x => x
      | None => VUndefined
      end
  | _ => VUndefined
  end.

(** The look for a first item. *)
Inductive probe : Type :=
| Fails
| Breaks
| Head (h : value).

(** The first item of a list that is not empty.  A string that is not
    empty counts as a list of its characters, and an object with a
    [length] of its own as a list whose items are its properties [0], [1]
    and so on; the look breaks when that [length] cannot be compared with
    a number.  Anything else has no first item. *)
Definition first_of (x : value) : probe :=
  match x with
  | VArr [] => Fails
  | VArr (h :: _) => Head h
  | VStr (String c _) => Head (VStr (String c EmptyString))
  | VObj _ =>
      match gt_zero (named "length" x) with
      | Ok true => Head (named "0" x)
      | Ok false => Fails
      | Throw _ => Breaks
      end
  | _ => Fails
  end.

(** What a body holds where the text is expected. *)
Inductive reading : Type :=
| NoFirstPart
| Broken
| FirstPartText (text : value).

(** The body read by its shape: the first item of [candidates], the first
    item of the [parts] of its [content], and the [text] of that part
    ([undefined] when the part has none).  There is no first part when
    either list is missing, empty or no list; the reading is broken when
    the body, the first candidate or the first part is [null] or
    [undefined]. *)
Definition reading_of (result : value) : reading :=
  match result with
  | VUndefined | VNull => Broken
  | _ =>
      match first_of (named "candidates" result) with
      | Fails => NoFirstPart
      | Breaks => Broken
      | Head VUndefined | Head VNull => Broken
      | Head candidate =>
          match first_of (named "parts" (named "content" candidate)) with
          | Fails => NoFirstPart
          | Breaks => Broken
          | Head VUndefined | Head VNull => Broken
          | Head part => FirstPartText (named "text" part)
          end
      end
  end.

(** The server's message is [m] and counts as one: it is truthy. *)
Definition server_sent (errorData m : value) : Prop :=
  error_message_is errorData m /\ truthy m = true.

(** The server sent no message: the body has no [error.message], or a
    falsy one. *)
Definition no_server_message (errorData : value) : Prop :=
  forall m, error_message_is errorData m -> truthy m = false.

End Component.

End App.

(* ===================================================================== *)
(** * The text of the request body, character by character               *)
(* ===================================================================== *)

Module Wire.
Import Text Js.

(** The request body up to the first character of the instruction, and
    from its last character on. *)
Definition wire_prefix : string :=
  join ["{"; dq; "contents"; dq; ":[{"; dq; "role"; dq; ":"; dq; "user"; dq;
        ","; dq; "parts"; dq; ":[{"; dq; "text"; dq; ":"; dq].

Definition wire_suffix : string := join [dq; "}]}]}"].



(** The value of a hexadecimal digit. *)
Definition hex_value (c : ascii) : nat :=
  let n := nat_of_ascii c in
  if (n <? 58)%nat then n - 48 else n - 87.

(** Reads back the first character that [json_escape] wrote at the head of
    a text: the inverse of the escapes of [JSON.stringify], one character
    at a time. *)
Definition json_unescape_head (s : string) : option (ascii * string) :=
  match s with
  | EmptyString => None
  | String c rest =>
      if (nat_of_ascii c =? 92)%nat then
        match rest with
        | EmptyString => None
        | String x rest' =>
            let n := nat_of_ascii x in
            if (n =? 34)%nat then Some (x, rest')
            else if (n =? 92)%nat then Some (x, rest')
            else if (n =? 98)%nat then Some (ascii_of_nat 8, rest')
            else if (n =? 116)%nat then Some (ascii_of_nat 9, rest')
            else if (n =? 110)%nat then Some (ascii_of_nat 10, rest')
            else if (n =? 102)%nat then Some (ascii_of_nat 12, rest')
            else if (n =? 114)%nat then Some (ascii_of_nat 13, rest')
            else if (n =? 117)%nat then
              match rest' with
              | String _ (String _ (String h (String l rest''))) =>
                  Some (ascii_of_nat (16 * hex_value h + hex_value l), rest'')
              | _ => None
              end
            else None
        end
      else Some (c, rest)
  end.

End Wire.

(* ===================================================================== *)
(** * The form controls, the render and the event handlers together       *)
(* ===================================================================== *)

Module Session.
Import Text Js Form App.

(** The ten controls of the form (JSX lines 192-320). *)
Inductive field : Type :=
| SceneDescription | SubjectFocus | CameraMovements | VisualStyle
| TimeOfDay | Genre | LightingConditions | AdditionalKeywords
| TextToSpeech | VideoFormat.

(** What a control shows: [value={...}]. *)
Definition get_field (f : field) (p : Params) : string :=
  match f with
  | SceneDescription => sceneDescription p
  | SubjectFocus => subjectFocus p
  | CameraMovements => cameraMovements p
  | VisualStyle => visualStyle p
  | TimeOfDay => timeOfDay p
  | Genre => genre p
  | LightingConditions => lightingConditions p
  | AdditionalKeywords => additionalKeywords p
  | TextToSpeech => textToSpeech p
  | VideoFormat => videoFormat p
  end.

(** The [onChange] handler of a control: the state setter of its field,
    called with [e.target.value]. *)
Definition set_field (f : field) (v : string) (p : Params) : Params :=
  match f with
  | SceneDescription =>
      mkParams v (subjectFocus p) (cameraMovements p) (visualStyle p)
               (timeOfDay p) (genre p) (lightingConditions p)
               (additionalKeywords p) (textToSpeech p) (videoFormat p)
  | SubjectFocus =>
      mkParams (sceneDescription p) v (cameraMovements p) (visualStyle p)
               (timeOfDay p) (genre p) (lightingConditions p)
               (additionalKeywords p) (textToSpeech p) (videoFormat p)
  | CameraMovements =>
      mkParams (sceneDescription p) (subjectFocus p) v (visualStyle p)
               (timeOfDay p) (genre p) (lightingConditions p)
               (additionalKeywords p) (textToSpeech p) (videoFormat p)
  | VisualStyle =>
      mkParams (sceneDescription p) (subjectFocus p) (cameraMovements p) v
               (timeOfDay p) (genre p) (lightingConditions p)
               (additionalKeywords p) (textToSpeech p) (videoFormat p)
  | TimeOfDay =>
      mkParams (sceneDescription p) (subjectFocus p) (cameraMovements p)
               (visualStyle p) v (genre p) (lightingConditions p)
               (additionalKeywords p) (textToSpeech p) (videoFormat p)
  | Genre =>
      mkParams (sceneDescription p) (subjectFocus p) (cameraMovements p)
               (visualStyle p) (timeOfDay p) v (lightingConditions p)
               (additionalKeywords p) (textToSpeech p) (videoFormat p)
  | LightingConditions =>
      mkParams (sceneDescription p) (subjectFocus p) (cameraMovements p)
               (visualStyle p) (timeOfDay p) (genre p) v
               (additionalKeywords p) (textToSpeech p) (videoFormat p)
  | AdditionalKeywords =>
      mkParams (sceneDescription p) (subjectFocus p) (cameraMovements p)
               (visualStyle p) (timeOfDay p) (genre p) (lightingConditions p)
               v (textToSpeech p) (videoFormat p)
  | TextToSpeech =>
      mkParams (sceneDescription p) (subjectFocus p) (cameraMovements p)
               (visualStyle p) (timeOfDay p) (genre p) (lightingConditions p)
               (additionalKeywords p) v (videoFormat p)
  | VideoFormat =>
      mkParams (sceneDescription p) (subjectFocus p) (cameraMovements p)
               (visualStyle p) (timeOfDay p) (genre p) (lightingConditions p)
               (additionalKeywords p) (textToSpeech p) v
  end.

(** The phrase that lines 55-62 put in the place of an empty field, for
    the fields that have one. *)
Definition fallback_of (f : field) : option string :=
  match f with
  | SceneDescription => Some fallback_sceneDescription
  | SubjectFocus => Some fallback_subjectFocus
  | CameraMovements => Some fallback_cameraMovements
  | VisualStyle => Some fallback_visualStyle
  | LightingConditions => Some fallback_lightingConditions
  | AdditionalKeywords => Some fallback_additionalKeywords
  | TimeOfDay | Genre | TextToSpeech | VideoFormat => None
  end.

Section Render.
Context {E : Engine}.

(** An effect at which an [async] function is suspended: [await fetch(...)]
    and [await response.json()]. *)
Definition is_await (e : event) : bool :=
  match e with
  | Fetch _ _ | ReadJson => true
  | _ => false
  end.

(** The effects of a run up to and with its next [await], and the effects
    that follow once the awaited promise settles. *)
Fixpoint await_split (t : list event) : list event * list event :=
  match t with
  | [] => ([], [])
  | e :: rest =>
      if is_await e then ([e], rest)
      else let (now, later) := await_split rest in (e :: now, later)
  end.

(** An effect that reads the body of the response. *)
Definition is_read (e : event) : bool :=
  match e with
  | ReadJson => true
  | _ => false
  end.

(** An effect that writes to the console. *)
Definition is_console (e : event) : bool :=
  match e with
  | ConsoleError _ _ => true
  | _ => false
  end.

(** Whether a string holds a carriage return. *)
Fixpoint holds_cr (s : string) : bool :=
  match s with
  | EmptyString => false
  | String c rest => Ascii.eqb c "013"%char || holds_cr rest
  end.

(** The value a textarea reports for the string assigned to it at line
    120: every carriage return followed by a line feed, and every other
    carriage return, is replaced by one line feed. *)
Fixpoint normalize_newlines (raw : string) : string :=
  match raw with
  | EmptyString => EmptyString
  | String c rest =>
      if Ascii.eqb c "013"%char then
        String "010"%char
          match rest with
          | String c' rest' =>
              if Ascii.eqb c' "010"%char then normalize_newlines rest'
              else normalize_newlines rest
          | EmptyString => EmptyString
          end
      else String c (normalize_newlines rest)
  end.

(** The values of the textareas that were selected each time the copy
    command ran: what the command had to put on the clipboard. *)
Fixpoint offered (selection : option string) (t : list event) : list string :=
  match t with
  | [] => []
  | Select n :: rest =>
      offered (Some (normalize_newlines (node_value n))) rest
  | ExecCommand _ :: rest =>
      match selection with
      | Some v => v :: offered selection rest
      | None => offered selection rest
      end
  | _ :: rest => offered selection rest
  end.

(** The pending timer [i] fires: its callback runs and the timer is gone. *)
Definition fire (i : nat) (w : World) : World :=
  match nth_error (timers w) i with
  | Some (_, callback) =>
      mkWorld (apply_setter callback (app w)) (children w)
              (firstn i (timers w) ++ skipn (S i) (timers w))%list
  | None => w
  end.

(** JSX line 327: [disabled={isLoading || !isAuthReady}]. *)
Definition submit_disabled (st : State) (isAuthReady : bool) : bool :=
  isLoading st || negb isAuthReady.

(** JSX lines 331-342: the label of the submit button. *)
Definition submit_label (st : State) : string :=
  if isLoading st then "Membuat Prompt..." else "Buat Prompt Veo 3".

(** JSX line 181: [{error && (...)}]. *)
Definition shows_banner (st : State) : bool := nonempty (error st).

(** JSX line 345: [{generatedPrompt && (...)}], the output area, which
    holds the copy button (lines 355-360). *)
Definition shows_output (st : State) : bool := truthy (generatedPrompt st).

(** JSX line 353, [value={generatedPrompt}], converts the output to a
    string whenever the output area is rendered: the page can be rendered
    when the output is falsy or has a string form. *)
Definition renderable (st : State) : bool :=
  if shows_output st then
    match to_string (generatedPrompt st) with
    | Ok _ => true
    | Throw _ => false
    end
  else true.

(** JSX line 362, inside the output area: [{copyMessage && (...)}]. *)
Definition shows_copy_note (st : State) : bool :=
  shows_output st && nonempty (copyMessage st).

(** The component between two events: the form, the page, the readiness
    flag of line 26, whether the timer of lines 34-36 is still pending, for
    each run of [generatePrompt] that is suspended at an [await] the
    effects it has still to perform, and every effect performed so far. *)
Record Session : Type := mkSession {
  form : Params;
  page : World;
  isAuthReady : bool;
  auth_timer : bool;
  runs : list (list event);
  history : list event
}.

(** The component once mounted (lines 6-38), in a document whose body has
    the children [body0]. *)
Definition start (body0 : list node) : Session :=
  mkSession Form.initial (mkWorld initial_state body0 []) false true [] [].

(** What can happen to the component. *)
Inductive action : Type :=
| Edit (f : field) (v : string)
| AuthTimerFires
| ClickGenerate (net : fetch_outcome)
| Settles (i : nat)
| ClickCopy (fresh : nat) (copy : command_outcome)
| TimerFires (i : nat).

(** The list [l] with its item [i] replaced by the items [xs]. *)
Definition splice {A : Type} (i : nat) (xs l : list A) : list A :=
  (firstn i l ++ xs ++ skipn (S i) l)%list.

(** The component after one event.  The render is in step with the
    state: a click reaches [generatePrompt] only while the button is
    enabled, and [copyToClipboard] only while the output area, which holds
    the copy button, is rendered.  A handler runs to its next [await]
    without interruption; [Settles i] lets the suspended run [i] go on to
    its next [await] or to its end. *)
Definition act (s : Session) (a : action) : Session :=
  match a with
  | Edit f v =>
      mkSession (set_field f v (form s)) (page s) (isAuthReady s)
                (auth_timer s) (runs s) (history s)
  | AuthTimerFires =>
      if auth_timer s
      then mkSession (form s) (page s) true false (runs s) (history s)
      else s
  | ClickGenerate net =>
      if submit_disabled (app (page s)) (isAuthReady s) then s
      else
        let (now, later) :=
          await_split (trace (generatePrompt (form s) net)) in
        mkSession (form s) (run now (page s)) (isAuthReady s) (auth_timer s)
                  (runs s ++ match later with [] => [] | _ => [later] end)%list
                  (history s ++ now)%list
  | Settles i =>
      match nth_error (runs s) i with
      | None => s
      | Some rest =>
          let (now, later) := await_split rest in
          mkSession (form s) (run now (page s)) (isAuthReady s)
                    (auth_timer s)
                    (splice i match later with [] => [] | _ => [later] end
                            (runs s))
                    (history s ++ now)%list
      end
  | ClickCopy fresh copy =>
      if shows_output (app (page s)) then
        let t :=
          trace (copyToClipboard (generatedPrompt (app (page s))) fresh copy)
        in
        mkSession (form s) (run t (page s)) (isAuthReady s) (auth_timer s)
                  (runs s) (history s ++ t)%list
      else s
  | TimerFires i =>
      mkSession (form s) (fire i (page s)) (isAuthReady s) (auth_timer s)
                (runs s) (history s)
  end.

(** The component after a sequence of events, from its mounting on and
    for as long as it stays mounted. *)
Definition session (body0 : list node) (events : list action) : Session :=
  fold_left act events (start body0).

(** The clicks on the submit button among some events. *)
Definition clicks (events : list action) : nat :=
  length (filter (fun a => match a with
                           | ClickGenerate _ => true
                           | _ => false
                           end) events).

(** A pending timer whose callback clears the copy notification. *)
Definition clears_note (t : N * setter) : Prop :=
  snd t = SetCopyMessage "".

(** What lines 96-106 do once the answer is known: they set the output,
    or set the error, or log and set the error in the [catch] block. *)
Definition verdict (v : list event) : Prop :=
  (exists text, v = [Call (SetGeneratedPrompt text)]) \/
  (exists m, v = [Call (SetError m)]) \/
  (exists e, v = caught e).

(** The effects that a run suspended at an [await] has still to perform. *)
Definition awaiting (rest : list event) : Prop :=
  exists v, verdict v /\
    (rest = (ReadJson :: v ++ [closing])%list \/ rest = (v ++ [closing])%list).

(** The status fields while no run is suspended: not busy, not both an
    error and an output to show, and no copy notification without the
    output area that holds it. *)
Definition at_rest (st : State) : Prop :=
  isLoading st = false /\
  shows_banner st && shows_output st = false /\
  (nonempty (copyMessage st) = true -> shows_output st = true).

(** The status fields while a run is suspended: everything cleared, busy. *)
Definition in_flight : State := mkState (VStr "") true "" "".

(** What holds of the component between any two events. *)
Definition consistent (s : Session) : Prop :=
  Forall clears_note (timers (page s)) /\
  ((runs s = [] /\ at_rest (app (page s))) \/
   (exists rest,
       runs s = [rest] /\ awaiting rest /\
       app (page s) = in_flight /\ isAuthReady s = true)).

End Render.

End Session.

(* ===================================================================== *)
(** * A concrete engine and concrete answers of the outside world         *)
(* ===================================================================== *)

Module Sample.
Import Text Js Form App.

(** [s > 0] for a string that is a run of decimal digits; any other string
    is read as no number. *)
Definition digits_gt0 (s : string) : bool :=
  match NilEmpty.uint_of_string s with
  | Some u => negb (N.eqb (N.of_uint u) 0)
  | None => false
  end.

(** An engine whose numbers are the integers.  It serves to run the
    functions on closed inputs; none of the inputs below holds a number. *)
#[global, refine] Instance integer_engine : Engine := {
  number := Z;
  number_of_nat := Z.of_nat;
  number_truthy := fun z => negb (Z.eqb z 0);
  number_gt0 := fun z => Z.ltb 0 z;
  number_to_string := fun z => NilZero.string_of_int (Z.to_int z);
  string_gt0 := digits_gt0
}.
Proof.
  intros n. destruct n as [|n]; reflexivity.
Defined.

(** A success response with the given body. *)
Definition success (v : value) : fetch_outcome :=
  Resolved (mkResponse true 200 "OK" (Parsed v)).

(** A failure response with the given status line and body. *)
Definition failure (code : N) (reason : string) (v : value) : fetch_outcome :=
  Resolved (mkResponse false code reason (Parsed v)).

(** [{"candidates":[{"content":{"parts":[part]}}]}]. *)
Definition one_candidate (part : value) : value :=
  VObj [("candidates",
         VArr [VObj [("content", VObj [("parts", VArr [part])])]])].

(** [{"candidates":[{"content":{"parts":[{"text":"X"}]}}]}]. *)
Definition body_text_X : value := one_candidate (VObj [("text", VStr "X")]).


(** [{"candidates":[{"content":{"parts":[{}]}}]}]: a first part without
    [text]. *)
Definition body_part_without_text : value := one_candidate (VObj []).




(** [{"error":{"message":"server down"}}]. *)
Definition body_server_down : value :=
  VObj [("error", VObj [("message", VStr "server down")])].

(** [{"error":{"message":{"toString":null}}}]: a message without a string
    form. *)
Definition body_unconvertible_message : value :=
  VObj [("error", VObj [("message", VObj [("toString", VNull)])])].

(** The page at rest, before anything was generated. *)
Definition page_at_rest : World := mkWorld initial_state [] [].

(** The page showing an earlier output, with the application's root
    element as the one child of the body. *)
Definition page_with_output : World :=
  mkWorld (mkState (VStr "A dragon at night.") false "" "")
          [mkNode 0 "div" ""] [].

(** A form with every field filled in. *)
Definition filled_form : Params :=
  mkParams "A fox in the snow" "The fox" "Slow push-in" "Watercolour"
           "Night" "Fantasy" "Dramatic" "mist, 8K" "Hello" "portrait".

(** The copy command is refused. *)
Definition copy_refused : command_outcome :=
  Threw (Error "The request is not allowed").

End Sample.

(* ===================================================================== *)
(** * Further closed inputs                                               *)
(* ===================================================================== *)

Module SampleMore.
Import Text Js Form App Sample Session.

(** [{"error":{"message":""}}]. *)
Definition body_empty_message : value :=
  VObj [("error", VObj [("message", VStr "")])].

(** The component made ready, then a click on the button while the
    network will answer with the text X. *)
Definition ready_then_click : list action :=
  [AuthTimerFires; ClickGenerate (success body_text_X)].

End SampleMore.

(* ===================================================================== *)
(** * Properties of the text functions                                    *)
(* ===================================================================== *)

Section TextFacts.
Import Text.

Lemma append_empty_r (s : string) : s ++ "" = s.
Proof. induction s as [|c s IH]; simpl; congruence. Qed.

Lemma append_assoc3 (a b c : string) : (a ++ b) ++ c = a ++ b ++ c.
Proof. induction a as [|x a IH]; simpl; congruence. Qed.

Lemma join_app (l1 l2 : list string) :
  join (l1 ++ l2)%list = join l1 ++ join l2.
Proof.
  induction l1 as [|x l1 IH]; simpl.
  - reflexivity.
  - rewrite IH. symmetry. apply append_assoc3.
Qed.

Lemma infix_refl (s : string) : infix s s.
Proof. exists "", "". simpl. symmetry. apply append_empty_r. Qed.

Lemma infix_trans (a b c : string) : infix a b -> infix b c -> infix a c.
Proof.
  intros [p1 [q1 H1]] [p2 [q2 H2]]. subst.
  exists (p2 ++ p1), (q1 ++ q2).
  now rewrite !append_assoc3.
Qed.

Lemma infix_app_l (a b : string) : infix a (a ++ b).
Proof. now exists "", b. Qed.

Lemma infix_app_r (a b : string) : infix b (a ++ b).
Proof. exists a, "". now rewrite append_empty_r. Qed.

Lemma infix_app_mid (a b c : string) : infix b (a ++ b ++ c).
Proof. now exists a, c. Qed.

(** A run of adjacent chunks of a template occurs in the template. *)
Lemma infix_window (k n : nat) (l : list string) (x : string) :
  infix x (join (firstn n (skipn k l))) -> infix x (join l).
Proof.
  intros H. apply (infix_trans _ _ _ H).
  rewrite <- (firstn_skipn k l) at 2.
  rewrite <- (firstn_skipn n (skipn k l)) at 2.
  rewrite !join_app. apply infix_app_mid.
Qed.

Lemma infix_join1 (a : string) : infix a (join [a]).
Proof. simpl. apply infix_app_l. Qed.

Lemma infix_join3 (a b c : string) : infix (a ++ b ++ c) (join [a; b; c]).
Proof. simpl. rewrite append_empty_r. apply infix_refl. Qed.

Lemma prefix_app (a b : string) :
  prefix a b = true -> exists rest, b = a ++ rest.
Proof.
  revert b. induction a as [|x a IH]; intros b H.
  - now exists b.
  - destruct b as [|y b]; simpl in H; [discriminate|].
    destruct (Ascii.ascii_dec x y) as [->|]; [|discriminate].
    destruct (IH b H) as [rest ->]. now exists rest.
Qed.

(** [includes] decides [infix]. *)
Lemma includes_infix (needle hay : string) :
  includes needle hay = true -> infix needle hay.
Proof.
  induction hay as [|c hay IH]; cbn [includes]; intros H.
  - apply orb_true_iff in H as [H|H]; [|discriminate].
    destruct (prefix_app _ _ H) as [rest ->]. apply infix_app_l.
  - apply orb_true_iff in H as [H|H].
    + destruct (prefix_app _ _ H) as [rest ->]. apply infix_app_l.
    + destruct (IH H) as [p [q ->]]. now exists (String c p), q.
Qed.

Lemma prefix_append (a b : string) : prefix a (a ++ b) = true.
Proof.
  induction a as [|x a IH]; cbn [prefix append].
  - now destruct b.
  - destruct (Ascii.ascii_dec x x) as [_|Hx]; [exact IH | now elim Hx].
Qed.

Lemma infix_includes (needle hay : string) :
  infix needle hay -> includes needle hay = true.
Proof.
  intros (before & after & ->).
  induction before as [|c before IH]; cbn [append].
  - destruct (needle ++ after) eqn:Hhay; cbn [includes];
      rewrite <- ?Hhay, prefix_append; reflexivity.
  - cbn [includes]. rewrite IH. apply orb_true_r.
Qed.

Lemma or_else_nonempty (v d : string) : v <> "" -> or_else v d = v.
Proof. destruct v; [congruence | reflexivity]. Qed.

Lemma or_else_empty (d : string) : or_else "" d = d.
Proof. reflexivity. Qed.

End TextFacts.

(** Finds the [n] adjacent chunks of a template that make up the wanted
    text, trying every position from [k] on. *)
Ltac find_window fuel k n :=
  lazymatch fuel with
  | O => fail "no such chunks"
  | S ?fuel' =>
      first
        [ apply (infix_window k n); cbn [firstn skipn];
          solve [ apply infix_refl | apply infix_join3 | apply infix_join1 ]
        | find_window fuel' (S k) n ]
  end.

(* ===================================================================== *)
(** * Properties of the instruction string                                *)
(* ===================================================================== *)

Section PromptFacts.
Import Text Form.

(** A field with a fallback phrase is substituted into its line. *)
Lemma substituted_chunks (label value fallback : string) (l : list string) :
  (forall x, infix x (join [label; or_else value fallback; nl]) ->
             infix x (join l)) ->
  substituted label value fallback (join l).
Proof.
  intros H. split; intros Hv.
  - rewrite (or_else_nonempty _ fallback Hv) in H. split; apply H.
    + simpl. apply infix_app_mid.
    + apply infix_join3.
  - subst value. rewrite or_else_empty in H. split; apply H.
    + simpl. apply infix_app_mid.
    + apply infix_join3.
Qed.

(** The dialogue stands in the inner template literal of line 63. *)
Lemma infix_dialogue (speech : string) :
  infix speech (dialogue_instruction speech).
Proof.
  unfold dialogue_instruction. apply (infix_window 2 1).
  cbn [firstn skipn]. apply infix_join1.
Qed.

Lemma speech_clause_nonempty (speech : string) :
  speech <> "" -> speech_clause speech = dialogue_instruction speech.
Proof. destruct speech; [congruence | reflexivity]. Qed.

(** C1. For every assignment of the ten fields, each free-text field (and
    [lightingConditions], which the template treats alike) stands verbatim
    in the instruction string, in its own labelled line, when it is not
    empty, and the fallback phrase of that field stands there when it is
    empty; [textToSpeech] stands verbatim when it is not empty and the
    no-dialogue phrase stands in its place when it is. *)
Theorem prompt_substitutes_every_field (p : Params) :
  let text := promptText p in
  substituted "- Scene Description: " (sceneDescription p)
              fallback_sceneDescription text /\
  substituted "- Subject Focus: " (subjectFocus p)
              fallback_subjectFocus text /\
  substituted "- Camera Movements: " (cameraMovements p)
              fallback_cameraMovements text /\
  substituted "- Visual Style: " (visualStyle p)
              fallback_visualStyle text /\
  substituted "- Lighting Conditions: " (lightingConditions p)
              fallback_lightingConditions text /\
  substituted "- Additional Keywords: " (additionalKeywords p)
              fallback_additionalKeywords text /\
  (textToSpeech p <> "" -> infix (textToSpeech p) text) /\
  (textToSpeech p = "" -> infix no_dialogue text).
Proof.
  intros text. subst text. unfold promptText.
  repeat match goal with |- _ /\ _ => split end;
    try (apply substituted_chunks; intros x Hx;
         apply (infix_trans _ _ _ Hx); find_window 60 0 3).
  - intros Hs. apply (infix_trans _ _ _ (infix_dialogue _)).
    rewrite <- (speech_clause_nonempty _ Hs). find_window 60 0 1.
  - intros Hs. rewrite Hs. change (speech_clause "") with no_dialogue.
    find_window 60 0 1.
Qed.

(** C5. When [textToSpeech] is empty its line of the instruction string
    holds the fixed phrase "No spoken dialogue specified."; when it is not
    empty the line holds the instruction to integrate the dialogue, with the
    exact dialogue between double quotes. *)
Theorem prompt_dialogue_clause (p : Params) :
  (textToSpeech p = "" ->
   infix ("- Text-to-Speech: " ++ no_dialogue ++ nl) (promptText p)) /\
  (textToSpeech p <> "" ->
   infix ("- Text-to-Speech: "
          ++ ("Integrate the following dialogue naturally into the video concept: "
              ++ dq ++ textToSpeech p ++ dq)
          ++ nl)
         (promptText p)).
Proof.
  unfold promptText. split; intros Hs.
  - rewrite Hs. change (speech_clause "") with no_dialogue.
    find_window 60 0 3.
  - rewrite (speech_clause_nonempty _ Hs).
    replace ("Integrate the following dialogue naturally into the video concept: "
             ++ dq ++ textToSpeech p ++ dq)
      with (dialogue_instruction (textToSpeech p))
      by (unfold dialogue_instruction, join; cbn [fold_right];
          now rewrite append_empty_r).
    find_window 60 0 3.
Qed.

End PromptFacts.

(* ===================================================================== *)
(** * What [generatePrompt] does, outcome by outcome                      *)
(* ===================================================================== *)

Section SubmitFacts.
Import Text Js Form App.
Context {E : Engine}.

(** [fetch] rejects: lines 46-49, the call, the [catch] block and the
    [finally] block. *)
Lemma generatePrompt_rejected (p : Params) (e : exn) :
  generatePrompt p (Rejected e)
  = ((opening ++ the_fetch p :: caught e ++ [closing])%list, Ok tt).
Proof. reflexivity. Qed.

(** The body of the response is no JSON text, whatever the status. *)
Lemma generatePrompt_unparsed (p : Params) (o : bool) (code : N)
      (reason : string) (e : exn) :
  generatePrompt p (Resolved (mkResponse o code reason (Unparsed e)))
  = ((opening ++ the_fetch p :: ReadJson :: caught e ++ [closing])%list,
     Ok tt).
Proof. destruct o; reflexivity. Qed.

(** A response that is not [ok], with a JSON body. *)
Lemma generatePrompt_not_ok (p : Params) (code : N) (reason : string)
      (errorData : value) :
  generatePrompt p
    (Resolved (mkResponse false code reason (Parsed errorData)))
  = ((opening ++ the_fetch p :: ReadJson
        :: caught (thrown_at_91
                     (mkResponse false code reason (Parsed errorData))
                     errorData)
        ++ [closing])%list,
     Ok tt).
Proof.
  unfold thrown_at_91, generatePrompt.
  cbn -[server_message promptText request_init apiUrl api_error].
  destruct (server_message errorData); reflexivity.
Qed.

(** A response that is [ok], with a JSON body. *)
Lemma generatePrompt_ok (p : Params) (code : N) (reason : string)
      (result : value) :
  generatePrompt p (Resolved (mkResponse true code reason (Parsed result)))
  = ((opening ++ the_fetch p :: ReadJson
        :: settled_ok result ++ [closing])%list,
     Ok tt).
Proof.
  unfold settled_ok, generatePrompt.
  cbn -[has_valid_content first_text promptText request_init apiUrl].
  destruct (has_valid_content result) as [[|]|e];
    cbn -[first_text promptText request_init apiUrl]; try reflexivity.
  destruct (first_text result); reflexivity.
Qed.

(** ** The shape of every run *)

Lemma quiet_caught (e : exn) : Forall quiet (caught e).
Proof. repeat constructor. Qed.

Lemma quiet_settled_ok (result : value) : Forall quiet (settled_ok result).
Proof.
  unfold settled_ok.
  destruct (has_valid_content result) as [[|]|e];
    [destruct (first_text result)|..];
    try apply quiet_caught; repeat constructor.
Qed.

(** Whatever the network does, a run is: the four opening setter calls,
    the one [fetch], effects that are neither a network call nor touch the
    busy flag, and the closing [setIsLoading(false)]; it throws nothing. *)
Lemma generatePrompt_shape (p : Params) (net : fetch_outcome) :
  exists mid,
    generatePrompt p net
    = ((opening ++ the_fetch p :: mid ++ [closing])%list, Ok tt) /\
    Forall quiet mid.
Proof.
  destruct net as [[o code reason [v|e]]|e].
  - destruct o.
    + exists (ReadJson :: settled_ok v). split.
      * apply generatePrompt_ok.
      * constructor; [now split | apply quiet_settled_ok].
    + exists (ReadJson
              :: caught (thrown_at_91 (mkResponse false code reason (Parsed v)) v)).
      split.
      * apply generatePrompt_not_ok.
      * constructor; [now split | apply quiet_caught].
  - exists (ReadJson :: caught e). split.
    + apply generatePrompt_unparsed.
    + constructor; [now split | apply quiet_caught].
  - exists (caught e). split.
    + apply generatePrompt_rejected.
    + apply quiet_caught.
Qed.

(** ** Running effects on the page *)

Lemma run_app (t1 t2 : list event) (w : World) :
  run (t1 ++ t2)%list w = run t2 (run t1 w).
Proof. apply fold_left_app. Qed.

Lemma step_keeps_busy (e : event) (w : World) :
  keeps_busy e = true -> isLoading (app (step w e)) = isLoading (app w).
Proof.
  destruct e as [[v|b|m|m]| | | | | | | | |]; simpl; intros H;
    try reflexivity; discriminate.
Qed.

Lemma quiet_calm (t : list event) : Forall quiet t -> Forall calm t.
Proof. apply Forall_impl. now intros e [H _]. Qed.

Lemma run_keeps_busy (t : list event) (w : World) :
  Forall calm t -> isLoading (app (run t w)) = isLoading (app w).
Proof.
  intros H. revert w. induction H as [|e t He _ IH]; intros w.
  - reflexivity.
  - simpl. rewrite IH. now apply step_keeps_busy.
Qed.

Lemma calm_firstn (n : nat) (t : list event) :
  Forall calm t -> Forall calm (firstn n t).
Proof.
  intros H. revert n. induction H as [|e t He _ IH]; intros [|n]; simpl;
    constructor; auto.
Qed.

(** The busy flag along a run that sets it after [pre], clears it last,
    and does not touch it in between: after the first [n] effects it is
    set exactly when [n] lies past the setting and before the clearing. *)
Lemma busy_window (pre mid : list event) (w : World) (n : nat) :
  Forall calm pre -> Forall calm mid ->
  isLoading (app w) = false ->
  let t := (pre ++ Call (SetIsLoading true) :: mid ++ [closing])%list in
  isLoading (app (run (firstn n t) w)) = true
  <-> (length pre < n /\ n < length t)%nat.
Proof.
  intros Hpre Hmid Hw t. subst t.
  rewrite firstn_app, run_app.
  destruct (Nat.le_gt_cases n (length pre)) as [Hn|Hn].
  - replace (n - length pre)%nat with 0%nat by lia. simpl.
    rewrite (run_keeps_busy _ _ (calm_firstn n _ Hpre)), Hw.
    split; [discriminate | lia].
  - rewrite (firstn_all2 pre) by lia.
    destruct (n - length pre)%nat as [|m] eqn:Hm; [lia|].
    cbn [firstn]. rewrite firstn_app.
    change (run (?e :: ?l) ?x) with (run l (step x e)).
    rewrite run_app. repeat (rewrite length_app; cbn [length]).
    destruct (Nat.le_gt_cases m (length mid)) as [Hle|Hgt].
    + replace (m - length mid)%nat with 0%nat by lia. simpl.
      rewrite (run_keeps_busy _ _ (calm_firstn m _ Hmid)). simpl.
      split; [lia | reflexivity].
    + rewrite (firstn_all2 mid) by lia.
      destruct (m - length mid)%nat as [|k] eqn:Hk; [lia|].
      cbn [firstn]. rewrite firstn_nil. simpl.
      split; [discriminate | lia].
Qed.

(** ** The busy flag *)

(** C4. From a page at rest (busy flag clear), every run of
    [generatePrompt] sets the busy flag as the effect just before the
    network call, touches it nowhere else but in the last effect, which
    clears it, and throws nothing, whatever the network does (success,
    failure, rejection, unreadable body).  So after the first [n] effects
    of the run the flag is set exactly when the run has started the call
    and has not yet ended: [4 <= n < length].  A run is taken on its own:
    the button that starts one is disabled while the flag is set (JSX line
    327), and no other code writes the flag. *)
Theorem busy_exactly_while_in_flight
        (p : Params) (net : fetch_outcome) (w : World) :
  isLoading (app w) = false ->
  exists mid,
    generatePrompt p net
    = (([Call (SetGeneratedPrompt (VStr "")); Call (SetError "");
         Call (SetCopyMessage ""); Call (SetIsLoading true);
         Fetch apiUrl (request_init (promptText p))]
        ++ mid ++ [Call (SetIsLoading false)])%list, Ok tt) /\
    Forall (fun e => keeps_busy e = true /\ is_fetch e = false) mid /\
    isLoading (app (run (trace (generatePrompt p net)) w)) = false /\
    forall n,
      isLoading (app (run (firstn n (trace (generatePrompt p net))) w)) = true
      <-> (4 <= n /\ n < length (trace (generatePrompt p net)))%nat.
Proof.
  intros Hw. destruct (generatePrompt_shape p net) as [mid [Hrun Hmid]].
  exists mid. split; [exact Hrun|]. split; [exact Hmid|].
  rewrite Hrun. unfold trace, fst.
  assert (Hpre : Forall calm [Call (SetGeneratedPrompt (VStr ""));
                              Call (SetError ""); Call (SetCopyMessage "")])
    by (repeat constructor).
  assert (Hrest : Forall calm (the_fetch p :: mid))
    by (constructor; [reflexivity | now apply quiet_calm]).
  split.
  - replace (opening ++ the_fetch p :: mid ++ [closing])%list
      with ((opening ++ the_fetch p :: mid) ++ [closing])%list
      by (now rewrite <- app_assoc).
    now rewrite run_app.
  - intros n. exact (busy_window _ _ w n Hpre Hrest Hw).
Qed.

(** ** The request *)

Lemma filter_fetch_quiet (mid : list event) :
  Forall quiet mid -> filter is_fetch mid = [].
Proof.
  induction 1 as [|e mid [_ He] _ IH]; [reflexivity|].
  cbn [filter]. now rewrite He.
Qed.

(** The JSON text of the payload of lines 74-77. *)
Lemma JSON_stringify_payload (instruction : string) :
  JSON_stringify (payload_of instruction)
  = join ["{"; dq; "contents"; dq; ":[{";
          dq; "role"; dq; ":"; dq; "user"; dq; ",";
          dq; "parts"; dq; ":[{";
          dq; "text"; dq; ":"; json_quote instruction;
          "}]}]}"].
Proof.
  unfold JSON_stringify, stringify_content, stringify_part,
    stringify_array, payload_of, join.
  cbn [List.app map contents role parts text String.concat fold_right].
  generalize (json_quote instruction). intros quoted.
  replace (json_quote "contents") with (dq ++ "contents" ++ dq)
    by reflexivity.
  replace (json_quote "role") with (dq ++ "role" ++ dq) by reflexivity.
  replace (json_quote "user") with (dq ++ "user" ++ dq) by reflexivity.
  replace (json_quote "parts") with (dq ++ "parts" ++ dq) by reflexivity.
  replace (json_quote "text") with (dq ++ "text" ++ dq) by reflexivity.
  rewrite !append_assoc3. reflexivity.
Qed.

(** C8. Every submission issues exactly one [fetch]: a POST to the fixed
    generative-language endpoint, with the JSON content type, whose body is
    the JSON text of [{contents: [{role: "user", parts: [{text: I}]}]}] for
    the assembled instruction string [I], the one conversational turn. *)
Theorem one_post_with_the_instruction (p : Params) (net : fetch_outcome) :
  filter is_fetch (trace (generatePrompt p net))
  = [Fetch
       "https://generativelanguage.googleapis.com/v1beta/models/gemini-2.0-flash:generateContent?key="
       (mkInit "POST" [("Content-Type", "application/json")]
          (join ["{"; dq; "contents"; dq; ":[{";
                 dq; "role"; dq; ":"; dq; "user"; dq; ",";
                 dq; "parts"; dq; ":[{";
                 dq; "text"; dq; ":"; json_quote (promptText p);
                 "}]}]}"]))] /\
  payload_of (promptText p)
  = mkPayload [mkContent "user" [mkPart (promptText p)]].
Proof.
  split; [|reflexivity].
  destruct (generatePrompt_shape p net) as [mid [Hrun Hmid]].
  rewrite Hrun. unfold trace, fst.
  change (opening ++ the_fetch p :: mid ++ [closing])%list
    with (opening ++ [the_fetch p] ++ mid ++ [closing])%list.
  rewrite !filter_app, (filter_fetch_quiet _ Hmid).
  rewrite <- JSON_stringify_payload. reflexivity.
Qed.

(** ** The test of lines 96-98 on the shapes of a body *)

Lemma gt0_length_cons {A : Type} (x : A) (l : list A) :
  number_gt0 (number_of_nat (length (x :: l))) = true.
Proof. now rewrite number_gt0_of_nat. Qed.

Lemma gt0_length_nil {A : Type} :
  number_gt0 (number_of_nat (length (@nil A))) = false.
Proof. now rewrite number_gt0_of_nat. Qed.

(** Reads the members named by the hypotheses and decides the tests. *)
Ltac read_members :=
  repeat first
    [ progress cbn [path get get_optional and_then or_else_value length_gt0
                    gt_zero truthy key_name bind ret Monad_result
                    String.eqb Ascii.eqb Bool.eqb nonempty decimal
                    N.of_nat N.to_uint NilEmpty.string_of_uint nth]
    | match goal with
      | H : own_property _ _ = _ |- _ => rewrite H
      end
    | rewrite gt0_length_cons
    | rewrite gt0_length_nil ].

(** A body with a first content part passes the test, and line 99 reads
    the [text] of that part. *)
Lemma first_part_valid (result part : value) :
  first_part result part ->
  has_valid_content result = Ok true /\
  first_text result = get part (Named "text").
Proof.
  intros (props & cprops & cs & kprops & ps & -> & Hc & Hk & Hp).
  unfold has_valid_content, first_text.
  split; read_members; [reflexivity|].
  now destruct (get part (Named "text")).
Qed.




(** A body of the documented shape reads as the text of its first part. *)
Lemma first_part_text_reading (result text : value) :
  first_part_text result text -> reading_of result = FirstPartText text.
Proof.
  intros (tprops & (props & cprops & cs & kprops & ps & -> & Hc & Hk & Hp)
          & Ht).
  unfold reading_of, named. rewrite Hc. cbn [first_of].
  rewrite Hk, Hp. cbn [first_of]. now rewrite Ht.
Qed.

(** ** The message of line 91 *)

Lemma server_message_unknown (errorData : value) :
  ~ has_error_message errorData ->
  server_message errorData = Ok "Unknown error".
Proof.
  intros Hno. unfold server_message.
  destruct errorData as [| |b|n|s|items|props]; try reflexivity.
  cbn [get_optional get key_name bind Monad_result].
  destruct (own_property "error" props) as [e|] eqn:He; [|reflexivity].
  destruct e as [| |b|n|s|items|inner]; try reflexivity.
  cbn [get_optional get key_name bind Monad_result].
  destruct (own_property "message" inner) as [m|] eqn:Hm; [|reflexivity].
  exfalso. apply Hno. exists m. now exists props, inner.
Qed.

(** Line 91 converts the message the server sent. *)
Lemma server_message_sent (errorData m : value) :
  server_sent errorData m -> server_message errorData = to_string m.
Proof.
  intros [(props & inner & -> & He & Hm) Ht].
  unfold server_message. read_members.
  unfold or_else_value. cbn [bind ret Monad_result]. now rewrite Ht.
Qed.

(** Line 91 falls back on its fixed words when the server sent none. *)
Lemma server_message_none (errorData : value) :
  no_server_message errorData ->
  server_message errorData = Ok "Unknown error".
Proof.
  intros Hno. unfold server_message.
  destruct errorData as [| |b|n|s|items|props]; try reflexivity.
  cbn [get_optional get key_name bind Monad_result].
  destruct (own_property "error" props) as [e|] eqn:He; [|reflexivity].
  destruct e as [| |b|n|s|items|inner]; try reflexivity.
  cbn [get_optional get key_name bind Monad_result].
  destruct (own_property "message" inner) as [m|] eqn:Hm; [|reflexivity].
  assert (Hf : truthy m = false) by (apply Hno; now exists props, inner).
  unfold or_else_value. cbn [bind ret Monad_result]. now rewrite Hf.
Qed.

(** Every parsed body of a response that is not [ok] either holds a
    message the server sent, or none. *)
Lemma server_sent_or_not (errorData : value) :
  (exists m, server_sent errorData m) \/ no_server_message errorData.
Proof.
  destruct errorData as [| |b|n|s|items|props];
    try (right; intros m (props & inner & Hbody & _); discriminate Hbody).
  destruct (own_property "error" props) as [e|] eqn:He.
  - destruct e as [| |b|n|s|items|inner];
      try (right; intros m (props' & inner' & Hbody & He' & _);
           injection Hbody as <-; rewrite He in He'; discriminate He').
    destruct (own_property "message" inner) as [m|] eqn:Hm.
    + destruct (truthy m) eqn:Ht.
      * left. exists m. split; [|exact Ht]. now exists props, inner.
      * right. intros m' (props' & inner' & Hbody & He' & Hm').
        injection Hbody as <-. rewrite He in He'. injection He' as <-.
        rewrite Hm in Hm'. now injection Hm' as <-.
    + right. intros m' (props' & inner' & Hbody & He' & Hm').
      injection Hbody as <-. rewrite He in He'. injection He' as <-.
      rewrite Hm in Hm'. discriminate Hm'.
  - right. intros m (props' & inner' & Hbody & He' & _).
    injection Hbody as <-. rewrite He in He'. discriminate He'.
Qed.
Lemma api_error_message (r : Response) (server : string) :
  message (api_error r server)
  = "API error: " ++ decimal (status r) ++ " " ++ statusText r ++ " - "
    ++ server.
Proof.
  unfold api_error, message, join. cbn [fold_right].
  now rewrite append_empty_r.
Qed.

(** ** The status fields after a run *)

(** The page once lines 46-49 have run: everything cleared, busy. *)
Lemma run_opening (w : World) :
  run opening w
  = mkWorld (mkState (VStr "") true "" "") (children w) (timers w).
Proof. reflexivity. Qed.

(** The status fields after a run that ends in the [catch] block. *)
Lemma final_caught (p : Params) (reads : list event) (e : exn) (w : World) :
  Forall (fun r => r = ReadJson) reads ->
  app (run (opening ++ the_fetch p :: reads ++ caught e ++ [closing])%list w)
  = mkState (VStr "") false ("Error generating prompt: " ++ message e) "".
Proof.
  intros Hreads.
  assert (Hr : forall x, run reads x = x).
  { induction Hreads as [|r reads -> _ IH]; intros x; [reflexivity|].
    apply IH. }
  rewrite run_app, run_opening.
  change (run (the_fetch p :: ?l) ?x) with (run l x).
  now rewrite run_app, Hr.
Qed.

Lemma final_caught_after_read (p : Params) (e : exn) (w : World) :
  app (run (opening ++ the_fetch p :: ReadJson
              :: caught e ++ [closing])%list w)
  = mkState (VStr "") false ("Error generating prompt: " ++ message e) "".
Proof. apply (final_caught p [ReadJson]). repeat constructor. Qed.

Lemma final_caught_at_fetch (p : Params) (e : exn) (w : World) :
  app (run (opening ++ the_fetch p :: caught e ++ [closing])%list w)
  = mkState (VStr "") false ("Error generating prompt: " ++ message e) "".
Proof. apply (final_caught p []). constructor. Qed.

(** The status fields after a run of lines 96-103 that sets one field. *)
Lemma final_set (p : Params) (s : setter) (w : World) :
  app (run (opening ++ the_fetch p :: ReadJson :: [Call s] ++ [closing])%list w)
  = apply_setter (SetIsLoading false)
      (apply_setter s (mkState (VStr "") true "" "")).
Proof. reflexivity. Qed.

(** The status fields after the run on an [ok] response with a parsed
    body. *)
Lemma final_ok (p : Params) (result : value) (w : World) :
  app (run (opening ++ the_fetch p :: ReadJson
              :: settled_ok result ++ [closing])%list w)
  = match has_valid_content result with
    | Ok true =>
        match first_text result with
        | Ok text => mkState text false "" ""
        | Throw e =>
            mkState (VStr "") false
                    ("Error generating prompt: " ++ message e) ""
        end
    | Ok false => mkState (VStr "") false no_valid_content ""
    | Throw e =>
        mkState (VStr "") false
                ("Error generating prompt: " ++ message e) ""
    end.
Proof.
  unfold settled_ok.
  destruct (has_valid_content result) as [[|]|e];
    [destruct (first_text result) as [text|e]|..];
    first [ apply final_caught_after_read | apply final_set ].
Qed.

(** C9. Every run of [generatePrompt] begins by clearing the generated
    output, the error message and the copy notification, in that order, and
    only then sets the busy flag; and once the run has ended, at most one
    of the output and the error message is set, the copy notification is
    still cleared and the busy flag is clear, whatever the page showed
    before and whatever the network did. *)
Theorem submit_clears_before_it_settles
        (p : Params) (net : fetch_outcome) (w : World) :
  let t := trace (generatePrompt p net) in
  let final := app (run t w) in
  firstn 4 t = [Call (SetGeneratedPrompt (VStr "")); Call (SetError "");
                Call (SetCopyMessage ""); Call (SetIsLoading true)] /\
  app (run (firstn 3 t) w) = mkState (VStr "") (isLoading (app w)) "" "" /\
  (generatedPrompt final = VStr "" \/ error final = "") /\
  copyMessage final = "" /\
  isLoading final = false.
Proof.
  intros t final. subst final t.
  destruct net as [[[|] code reason [v|e]]|e];
    rewrite ?generatePrompt_ok, ?generatePrompt_not_ok,
      ?generatePrompt_unparsed, ?generatePrompt_rejected;
    unfold trace, fst;
    (split; [reflexivity|]); (split; [reflexivity|]).
  - rewrite final_ok.
    destruct (has_valid_content v) as [[|]|e];
      [destruct (first_text v) as [text|e]|..]; cbn; auto.
  - rewrite final_caught_after_read. cbn; auto.
  - rewrite final_caught_after_read. cbn; auto.
  - rewrite final_caught_after_read. cbn; auto.
  - rewrite final_caught_at_fetch. cbn; auto.
Qed.

(** The render of a page whose run ended in the [catch] block. *)
Lemma status_caught (m : string) :
  status_of (mkState (VStr "") false ("Error generating prompt: " ++ m) "")
  = Failed ("Error generating prompt: " ++ m).
Proof. reflexivity. Qed.

(** ** An [ok] response *)


(** ** A response that is not [ok] *)

(** C3, amended.  On every response that is not [ok] the run ends Failed,
    with no output, and the message starts with "Error generating
    prompt: ".  When the body parses and the server sent a message that
    has a string form, the words that follow are "API error: ", the status
    code, the status text, " - " and that string form; when the body
    parses and the server sent no message, the same with "Unknown error"
    in its place.  When the server's message has no string form, the
    conversion of line 91 throws, and when the body does not parse, the
    parse throws: the thrown error reaches the same [catch] block and the
    words that follow are its message, without the status line. *)
Theorem failed_response_reports
        (p : Params) (w : World) (code : N) (reason : string)
        (body : json_outcome) :
  let net := Resolved (mkResponse false code reason body) in
  let final := app (run (trace (generatePrompt p net)) w) in
  generatedPrompt final = VStr "" /\
  isLoading final = false /\
  (exists m, status_of final = Failed ("Error generating prompt: " ++ m)) /\
  (forall errorData m words,
      body = Parsed errorData -> server_sent errorData m ->
      to_string m = Ok words ->
      status_of final
      = Failed ("Error generating prompt: "
                ++ "API error: " ++ decimal code ++ " " ++ reason ++ " - "
                ++ words)) /\
  (forall errorData,
      body = Parsed errorData -> no_server_message errorData ->
      status_of final
      = Failed ("Error generating prompt: "
                ++ "API error: " ++ decimal code ++ " " ++ reason ++ " - "
                ++ "Unknown error")) /\
  (forall errorData m e,
      body = Parsed errorData -> server_sent errorData m ->
      to_string m = Throw e ->
      status_of final = Failed ("Error generating prompt: " ++ message e)) /\
  (forall e,
      body = Unparsed e ->
      status_of final = Failed ("Error generating prompt: " ++ message e)).
Proof.
  intros net final. subst final net.
  destruct body as [errorData|e].
  - rewrite generatePrompt_not_ok. unfold trace, fst.
    rewrite final_caught_after_read.
    assert (Hwords : forall words,
               server_message errorData = Ok words ->
               status_of
                 (mkState (VStr "") false
                    ("Error generating prompt: "
                     ++ message (thrown_at_91
                                   (mkResponse false code reason
                                               (Parsed errorData))
                                   errorData)) "")
               = Failed ("Error generating prompt: "
                         ++ "API error: " ++ decimal code ++ " " ++ reason
                         ++ " - " ++ words)).
    { intros words Hw. unfold thrown_at_91.
      rewrite Hw, api_error_message. apply status_caught. }
    repeat match goal with |- _ /\ _ => split end; try reflexivity.
    + eexists. apply status_caught.
    + intros d m words Hd Hsent Hs. injection Hd as <-.
      apply Hwords. now rewrite (server_message_sent _ _ Hsent).
    + intros d Hd Hno. injection Hd as <-.
      apply Hwords. now apply server_message_none.
    + intros d m e Hd Hsent Hs. injection Hd as <-.
      unfold thrown_at_91.
      rewrite (server_message_sent _ _ Hsent), Hs. apply status_caught.
    + discriminate.
  - rewrite generatePrompt_unparsed. unfold trace, fst.
    rewrite final_caught_after_read.
    repeat match goal with |- _ /\ _ => split end; try reflexivity.
    + eexists. apply status_caught.
    + discriminate.
    + discriminate.
    + discriminate.
    + intros e' He. injection He as <-. apply status_caught.
Qed.

(** C10. On a response that is not [ok] whose body parses to a value
    without an [error.message] member, the run ends Failed and the message
    is the status code and the status text followed by the fixed words
    "Unknown error", with which it ends. *)
Theorem failed_response_without_message
        (p : Params) (w : World) (code : N) (reason : string)
        (errorData : value) :
  ~ has_error_message errorData ->
  let net := Resolved (mkResponse false code reason (Parsed errorData)) in
  let final := app (run (trace (generatePrompt p net)) w) in
  status_of final
  = Failed ("Error generating prompt: "
            ++ "API error: " ++ decimal code ++ " " ++ reason ++ " - "
            ++ "Unknown error") /\
  ends_with "Unknown error" (error final).
Proof.
  intros Hno net final. subst final net.
  rewrite generatePrompt_not_ok. unfold trace, fst.
  rewrite final_caught_after_read. unfold thrown_at_91.
  rewrite (server_message_unknown _ Hno), api_error_message.
  split; [apply status_caught|].
  exists ("Error generating prompt: "
          ++ "API error: " ++ decimal code ++ " " ++ reason ++ " - ").
  cbn [error status statusText]. now rewrite !append_assoc3.
Qed.

End SubmitFacts.

(* ===================================================================== *)
(** * What [copyToClipboard] does                                         *)
(* ===================================================================== *)

Section CopyFacts.
Import Text Js Form App.
Context {E : Engine}.

(** The copy command returns: lines 119-126. *)
Lemma copyToClipboard_returned
      (v : value) (fresh : nat) (supported : bool) (content : string) :
  truthy v = true -> to_string v = Ok content ->
  copyToClipboard v fresh (Returned supported)
  = ([CreateElement (textarea fresh "");
      AppendChild (textarea fresh content);
      Select (textarea fresh content);
      ExecCommand "copy";
      RemoveChild (textarea fresh content);
      Call (SetCopyMessage "Prompt disalin!");
      SetTimeout (SetCopyMessage "") 3000], Ok tt).
Proof.
  intros Hv Hs. unfold copyToClipboard. rewrite Hv.
  cbn -[to_string]. rewrite Hs. reflexivity.
Qed.

(** The copy command throws: lines 119-123, then the [catch] block. *)
Lemma copyToClipboard_threw
      (v : value) (fresh : nat) (e : exn) (content : string) :
  truthy v = true -> to_string v = Ok content ->
  copyToClipboard v fresh (Threw e)
  = ([CreateElement (textarea fresh "");
      AppendChild (textarea fresh content);
      Select (textarea fresh content);
      ExecCommand "copy";
      ConsoleError "Gagal menyalin:" e;
      Call (SetCopyMessage "Gagal menyalin prompt.")], Ok tt).
Proof.
  intros Hv Hs. unfold copyToClipboard. rewrite Hv.
  cbn -[to_string]. rewrite Hs. reflexivity.
Qed.

(** Nothing to copy: no effect at all. *)
Lemma copyToClipboard_nothing
      (v : value) (fresh : nat) (copy : command_outcome) :
  truthy v = false -> copyToClipboard v fresh copy = ([], Ok tt).
Proof. intros Hv. unfold copyToClipboard. now rewrite Hv. Qed.

Lemma remove_node_fresh (n : node) (l : list node) :
  ~ In (node_id n) (map node_id l) -> remove_node n (l ++ [n]) = l.
Proof.
  intros Hfresh. unfold remove_node. rewrite filter_app. cbn [filter].
  rewrite Nat.eqb_refl. cbn [negb]. rewrite app_nil_r.
  induction l as [|c l IH]; [reflexivity|].
  cbn [filter]. destruct (Nat.eqb_spec (node_id c) (node_id n)) as [Heq|Hne].
  - exfalso. apply Hfresh. left. exact Heq.
  - cbn [negb]. f_equal. apply IH. intros Hin. apply Hfresh. now right.
Qed.

(** When the copy command returns, the body is as it was, the success
    notification shows and one timer of 3000 ms will clear it. *)
Lemma copy_returned_page
      (v : value) (fresh : nat) (supported : bool) (content : string)
      (w : World) :
  truthy v = true -> to_string v = Ok content ->
  ~ In fresh (map node_id (children w)) ->
  let w' := run (trace (copyToClipboard v fresh (Returned supported))) w in
  children w' = children w /\
  copyMessage (app w') = "Prompt disalin!" /\
  timers w' = (timers w ++ [(3000%N, SetCopyMessage "")])%list.
Proof.
  intros Hv Hs Hfresh w'. subst w'.
  rewrite (copyToClipboard_returned _ _ _ _ Hv Hs).
  cbn [trace fst run fold_left step children app timers apply_setter
       copyMessage].
  repeat split. now apply (remove_node_fresh (textarea fresh content)).
Qed.

(** C6, on the failing path.  When the copy command throws, the temporary
    element is still a child of the body after the operation: the body is
    the old body followed by the textarea, and so is not the old body. *)
Theorem copy_throw_leaves_textarea
        (v : value) (fresh : nat) (e : exn) (content : string) (w : World) :
  truthy v = true -> to_string v = Ok content ->
  let w' := run (trace (copyToClipboard v fresh (Threw e))) w in
  children w' = (children w ++ [textarea fresh content])%list /\
  children w' <> children w.
Proof.
  intros Hv Hs w'. subst w'.
  rewrite (copyToClipboard_threw _ _ _ _ Hv Hs).
  cbn [trace fst run fold_left step children].
  split; [reflexivity|].
  intros Heq. apply (f_equal (@length node)) in Heq.
  rewrite length_app in Heq. cbn [length] in Heq. lia.
Qed.

(** C7, on the failing path.  When the copy command throws, the failure
    notification is shown and the operation sets no timer: the pending
    timers are those of before, so nothing is scheduled to clear it. *)
Theorem copy_failure_sets_no_timer
        (v : value) (fresh : nat) (e : exn) (content : string) (w : World) :
  truthy v = true -> to_string v = Ok content ->
  let t := trace (copyToClipboard v fresh (Threw e)) in
  copyMessage (app (run t w)) = "Gagal menyalin prompt." /\
  filter is_timer t = [] /\
  timers (run t w) = timers w.
Proof.
  intros Hv Hs t. subst t.
  rewrite (copyToClipboard_threw _ _ _ _ Hv Hs).
  repeat split.
Qed.

End CopyFacts.

(* ===================================================================== *)
(** * The theorems at work on closed inputs                               *)
(* ===================================================================== *)

Section Closed.
Import Text Js Form App Sample.

(** C1 at work: in the filled form the scene description stands verbatim;
    in the initial form its fallback phrase stands instead. *)
Lemma prompt_substitutes_filled_and_initial :
  infix "A fox in the snow" (promptText filled_form) /\
  infix "A captivating and dynamic scene" (promptText Form.initial).
Proof.
  split.
  - apply (proj1 (prompt_substitutes_every_field filled_form)).
    discriminate.
  - apply (proj1 (prompt_substitutes_every_field Form.initial)).
    reflexivity.
Defined.

(** C5 at work: the dialogue Hello is wrapped in double quotes. *)
Lemma prompt_dialogue_hello :
  infix ("- Text-to-Speech: "
         ++ ("Integrate the following dialogue naturally into the video concept: "
             ++ dq ++ "Hello" ++ dq)
         ++ nl)
        (promptText filled_form).
Proof.
  apply (proj2 (prompt_dialogue_clause filled_form)). discriminate.
Defined.

(** C4 at work: from the page at rest, a run on a good answer has eight
    effects and is busy after the fourth up to the seventh. *)
Lemma busy_on_good_answer :
  isLoading (app page_at_rest) = false /\
  exists mid,
    generatePrompt Form.initial (success body_text_X)
    = (([Call (SetGeneratedPrompt (VStr "")); Call (SetError "");
         Call (SetCopyMessage ""); Call (SetIsLoading true);
         Fetch apiUrl (request_init (promptText Form.initial))]
        ++ mid ++ [Call (SetIsLoading false)])%list, Ok tt) /\
    Forall (fun e => keeps_busy e = true /\ is_fetch e = false) mid /\
    isLoading
      (app (run (trace (generatePrompt Form.initial (success body_text_X)))
                page_at_rest)) = false /\
    forall n,
      isLoading
        (app (run (firstn n (trace (generatePrompt Form.initial
                                      (success body_text_X))))
                  page_at_rest)) = true
      <-> (4 <= n /\
           n < length (trace (generatePrompt Form.initial
                                (success body_text_X))))%nat.
Proof.
  split; [reflexivity|].
  apply (busy_exactly_while_in_flight Form.initial (success body_text_X)
           page_at_rest).
  reflexivity.
Defined.



(** An [ok] response whose first content part has no [text]: the output
    becomes [undefined], no error is set, and the page shows neither an
    output nor an error. *)
Example part_without_text_shows_nothing :
  app (run (trace (generatePrompt Form.initial
                     (success body_part_without_text))) page_with_output)
  = mkState VUndefined false "" "" /\
  status_of (app (run (trace (generatePrompt Form.initial
                                (success body_part_without_text)))
                      page_with_output))
  = Idle.
Proof. split; reflexivity. Qed.

(** C3 at work: a 500 with the body [{"error":{"message":"server down"}}]
    ends Failed, and the message holds both 500 and the server's words. *)
Lemma failed_response_500_server_down :
  status_of (app (run (trace (generatePrompt Form.initial
                                (failure 500 "Internal Server Error"
                                         body_server_down)))
                      page_with_output))
  = Failed "Error generating prompt: API error: 500 Internal Server Error - server down" /\
  infix "500"
    "Error generating prompt: API error: 500 Internal Server Error - server down" /\
  infix "server down"
    "Error generating prompt: API error: 500 Internal Server Error - server down".
Proof.
  split; [|split; apply includes_infix; reflexivity].
  apply (proj1 (proj2 (proj2 (proj2
           (failed_response_reports Form.initial page_with_output 500
              "Internal Server Error" (Parsed body_server_down)))))
           body_server_down (VStr "server down") "server down" eq_refl).
  - split; [|reflexivity].
    now exists [("error", VObj [("message", VStr "server down")])],
               [("message", VStr "server down")].
  - reflexivity.
Defined.

(** C3 as stated fails: a 500 whose body parses to
    [{"error":{"message":{"toString":null}}}] ends Failed, but the message
    holds neither the status code nor the status text: the conversion of
    the server's message throws inside line 91, and the message is that of
    the thrown error. *)
Lemma failed_response_unconvertible_message :
  let final :=
    app (run (trace (generatePrompt Form.initial
                       (failure 500 "Internal Server Error"
                                body_unconvertible_message)))
             page_with_output) in
  status_of final
  = Failed "Error generating prompt: Cannot convert object to primitive value" /\
  ~ infix "500" (error final) /\
  ~ infix "Internal Server Error" (error final).
Proof.
  split; [reflexivity|].
  split; intros H; apply infix_includes in H; discriminate H.
Qed.

(** C10 at work: a 404 whose body is the empty object. *)
Lemma failed_response_404_empty_object :
  status_of (app (run (trace (generatePrompt Form.initial
                                (failure 404 "Not Found" (VObj []))))
                      page_with_output))
  = Failed "Error generating prompt: API error: 404 Not Found - Unknown error".
Proof.
  apply (failed_response_without_message Form.initial page_with_output 404
           "Not Found" (VObj [])).
  intros (m & props & inner & Hbody & He & _).
  injection Hbody as <-. discriminate He.
Defined.

(** C6 at work: the page shows an output, the copy command is refused, and
    the textarea stays in the body, after the application's root. *)
Lemma copy_refused_leaves_textarea :
  children (run (trace (copyToClipboard (VStr "A dragon at night.") 1
                                        copy_refused))
                page_with_output)
  = [mkNode 0 "div" ""; mkNode 1 "textarea" "A dragon at night."].
Proof.
  apply (copy_throw_leaves_textarea (VStr "A dragon at night.") 1
           (Error "The request is not allowed") "A dragon at night."
           page_with_output); reflexivity.
Defined.

(** C7 at work: the copy command is refused, the failure notification
    shows, and no timer is pending. *)
Lemma copy_refused_sets_no_timer :
  copyMessage (app (run (trace (copyToClipboard (VStr "A dragon at night.") 1
                                                copy_refused))
                        page_with_output))
  = "Gagal menyalin prompt." /\
  filter is_timer (trace (copyToClipboard (VStr "A dragon at night.") 1
                                          copy_refused)) = [] /\
  timers (run (trace (copyToClipboard (VStr "A dragon at night.") 1
                                      copy_refused))
              page_with_output) = [].
Proof.
  apply (copy_failure_sets_no_timer (VStr "A dragon at night.") 1
           (Error "The request is not allowed") "A dragon at night."
           page_with_output); reflexivity.
Defined.

End Closed.

(* ===================================================================== *)
(** * More on the instruction string                                      *)
(* ===================================================================== *)

Section PromptMore.
Import Text Form Session.

(** X1. The three fields without a fallback ([timeOfDay], [genre],
    [videoFormat], lines 59, 60 and 64) stand in their lines exactly as
    they are, whatever they hold: an empty one leaves its line empty after
    the label. *)
Theorem prompt_plain_fields (p : Params) :
  infix ("- Time of Day: " ++ timeOfDay p ++ nl) (promptText p) /\
  infix ("- Genre: " ++ genre p ++ nl) (promptText p) /\
  infix ("- Video Format: " ++ videoFormat p ++ nl) (promptText p).
Proof.
  unfold promptText. repeat split; find_window 60 0 3.
Qed.

(** X2. A field left empty and the same field holding its own fallback
    phrase give the same instruction string: the request cannot tell the two
    apart. *)
Theorem empty_field_reads_as_its_fallback
        (f : field) (phrase : string) (p : Params) :
  fallback_of f = Some phrase ->
  promptText (set_field f "" p) = promptText (set_field f phrase p).
Proof.
  destruct f; cbn [fallback_of]; intros Hf;
    first [ discriminate Hf | injection Hf as <-; reflexivity ].
Qed.

End PromptMore.

(* ===================================================================== *)
(** * More on the request body                                            *)
(* ===================================================================== *)

Section WireFacts.
Import Text Js App Wire.

Lemma append_cancel_l (p a b : string) : p ++ a = p ++ b -> a = b.
Proof.
  induction p as [|c p IH]; cbn [append]; intros H; [exact H|].
  injection H as H. now apply IH.
Qed.

(** The request body is the fixed prefix, the escaped instruction and the
    fixed suffix. *)
Lemma JSON_stringify_split (instruction : string) :
  JSON_stringify (payload_of instruction)
  = wire_prefix ++ json_escape_all instruction ++ wire_suffix.
Proof.
  rewrite JSON_stringify_payload.
  unfold wire_prefix, wire_suffix, json_quote, join. cbn [fold_right].
  generalize (json_escape_all instruction). intros escaped.
  rewrite !append_assoc3. reflexivity.
Qed.

(** Every escape can be read back. *)
Lemma json_unescape_head_escape (c : ascii) (rest : string) :
  json_unescape_head (json_escape c ++ rest) = Some (c, rest).
Proof.
  destruct c as [[|] [|] [|] [|] [|] [|] [|] [|]]; reflexivity.
Qed.

(** No escape starts with a double quote. *)
Lemma json_escape_no_quote_head (c : ascii) (rest tail : string) :
  json_escape c ++ rest <> String "034"%char tail.
Proof.
  destruct c as [[|] [|] [|] [|] [|] [|] [|] [|]]; discriminate.
Qed.

Lemma json_escape_all_inj (a b tail : string) :
  json_escape_all a ++ String "034"%char tail
  = json_escape_all b ++ String "034"%char tail ->
  a = b.
Proof.
  revert b. induction a as [|x a IH]; intros [|y b] H; cbn [json_escape_all] in H.
  - reflexivity.
  - exfalso. rewrite append_assoc3 in H. cbn [append] in H.
    symmetry in H. now apply json_escape_no_quote_head in H.
  - exfalso. rewrite append_assoc3 in H. cbn [append] in H.
    now apply json_escape_no_quote_head in H.
  - rewrite !append_assoc3 in H.
    apply (f_equal json_unescape_head) in H.
    rewrite !json_unescape_head_escape in H.
    injection H as -> H. f_equal. now apply IH.
Qed.

(** X3. The request body determines the instruction string: two
    submissions send the same body exactly when their instruction strings
    are the same, whatever quotes, backslashes and control characters the
    fields hold. *)
Theorem request_body_determines_instruction (a b : string) :
  body (request_init a) = body (request_init b) <-> a = b.
Proof.
  split; [|now intros ->].
  unfold request_init. cbn [body]. rewrite !JSON_stringify_split.
  intros H. apply append_cancel_l in H.
  now apply (json_escape_all_inj a b "}]}]}").
Qed.





End WireFacts.

(* ===================================================================== *)
(** * More on [generatePrompt]                                            *)
(* ===================================================================== *)

(** Reads the members that the hypotheses name. *)
Ltac read_own :=
  repeat first
    [ progress cbn [Js.path Js.get Js.get_optional Js.and_then
                    Js.or_else_value Js.truthy Js.key_name bind ret
                    Js.Monad_result String.eqb Ascii.eqb Bool.eqb]
    | match goal with
      | H : Js.own_property _ _ = _ |- _ => rewrite H
      end ].

Section SubmitMore.
Import Text Js Form App Session.
Context {E : Engine}.

Lemma verdict_settled_ok (result : value) : verdict (settled_ok result).
Proof.
  unfold settled_ok, verdict.
  destruct (has_valid_content result) as [[|]|e];
    [destruct (first_text result) as [text|e]|..]; eauto.
Qed.

(** Every run is the opening, the [fetch], and then what a suspended run
    has still to do. *)
Lemma generatePrompt_awaiting (p : Params) (net : fetch_outcome) :
  exists rest,
    generatePrompt p net = ((opening ++ the_fetch p :: rest)%list, Ok tt) /\
    awaiting rest.
Proof.
  destruct net as [[[|] code reason [v|e]]|e].
  - eexists. split; [apply generatePrompt_ok|].
    exists (settled_ok v). split; [apply verdict_settled_ok | now left].
  - eexists. split; [apply generatePrompt_unparsed|].
    exists (caught e). split; [unfold verdict; eauto | now left].
  - eexists. split; [apply generatePrompt_not_ok|].
    eexists. split; [unfold verdict; eauto | now left].
  - eexists. split; [apply generatePrompt_unparsed|].
    exists (caught e). split; [unfold verdict; eauto | now left].
  - eexists. split; [apply generatePrompt_rejected|].
    exists (caught e). split; [unfold verdict; eauto | now right].
Qed.

(** X5. When [fetch] itself rejects (no network, a blocked request), the
    run ends Failed with the rejection's message after "Error generating
    prompt: ", with no output, and the body of a response is never read. *)
Theorem rejected_fetch_fails_without_reading
        (p : Params) (e : exn) (w : World) :
  let t := trace (generatePrompt p (Rejected e)) in
  status_of (app (run t w))
  = Failed ("Error generating prompt: " ++ message e) /\
  generatedPrompt (app (run t w)) = VStr "" /\
  filter is_read t = [].
Proof.
  intros t. subst t. rewrite generatePrompt_rejected. unfold trace, fst.
  rewrite final_caught_at_fetch. repeat split.
Qed.

Lemma filter_read_verdict (v : list event) :
  verdict v -> filter is_read v = [].
Proof. intros [[t ->]|[[m ->]|[e ->]]]; reflexivity. Qed.

(** X6. [response.json()] is called exactly once in a run whose [fetch]
    resolved, whatever the status and the body, and never in a run whose
    [fetch] rejected: no run reads the body of a response twice. *)
Theorem body_is_read_once (p : Params) (net : fetch_outcome) :
  filter is_read (trace (generatePrompt p net))
  = match net with
    | Resolved _ => [ReadJson]
    | Rejected _ => []
    end.
Proof.
  destruct net as [[[|] code reason [v|e]]|e];
    rewrite ?generatePrompt_ok, ?generatePrompt_not_ok,
      ?generatePrompt_unparsed, ?generatePrompt_rejected;
    unfold trace, fst; try reflexivity.
  change (opening ++ the_fetch p :: ReadJson :: settled_ok v ++ [closing])%list
    with (opening ++ [the_fetch p; ReadJson] ++ settled_ok v ++ [closing])%list.
  rewrite !filter_app, (filter_read_verdict _ (verdict_settled_ok v)).
  reflexivity.
Qed.

(** The words of line 91 when the server's message is falsy. *)
Lemma server_message_falsy (errorData m : value) :
  error_message_is errorData m -> truthy m = false ->
  server_message errorData = Ok "Unknown error".
Proof.
  intros (props & inner & -> & He & Hm) Hfalse.
  unfold server_message. read_own. now rewrite Hfalse.
Qed.

(** X7. A response that is not [ok] and whose [error.message] is there but
    falsy (the empty string, [null], [false], a zero) is reported like one
    without a message: the words after the status line are "Unknown
    error". *)
Theorem failed_response_with_falsy_message
        (p : Params) (w : World) (code : N) (reason : string)
        (errorData m : value) :
  error_message_is errorData m -> truthy m = false ->
  let net := Resolved (mkResponse false code reason (Parsed errorData)) in
  status_of (app (run (trace (generatePrompt p net)) w))
  = Failed ("Error generating prompt: "
            ++ "API error: " ++ decimal code ++ " " ++ reason ++ " - "
            ++ "Unknown error").
Proof.
  intros Hm Hfalse net. subst net.
  rewrite generatePrompt_not_ok. unfold trace, fst.
  rewrite final_caught_after_read. unfold thrown_at_91.
  rewrite (server_message_falsy _ _ Hm Hfalse), api_error_message.
  apply status_caught.
Qed.

(** X8. An [ok] response whose first content part is an object without a
    [text] passes the test of lines 96-98: the output becomes [undefined],
    no error is set, the busy flag is cleared, and the page shows neither
    an output nor an error. *)
Theorem first_part_without_text_shows_nothing
        (p : Params) (w : World) (code : N) (reason : string)
        (result : value) (tprops : list (string * value)) :
  first_part result (VObj tprops) -> own_property "text" tprops = None ->
  let net := Resolved (mkResponse true code reason (Parsed result)) in
  let final := app (run (trace (generatePrompt p net)) w) in
  final = mkState VUndefined false "" "" /\
  shows_output final = false /\ shows_banner final = false.
Proof.
  intros Hpart Htext net final. subst final net.
  rewrite generatePrompt_ok. unfold trace, fst. rewrite final_ok.
  destruct (first_part_valid _ _ Hpart) as [-> ->].
  cbn [get key_name]. rewrite Htext. repeat split.
Qed.

(** X9. A run writes to the console exactly when an error was thrown and
    caught: then it logs that one error once, and the page shows the same
    error's message after "Error generating prompt: ".  A run that logs
    nothing ends with no error or with the no-valid-content message. *)
Theorem console_logs_what_the_page_reports
        (p : Params) (net : fetch_outcome) (w : World) :
  let t := trace (generatePrompt p net) in
  let final := app (run t w) in
  (filter is_console t = [] /\
   (error final = "" \/ error final = no_valid_content))
  \/
  (exists e,
      filter is_console t = [ConsoleError "Error generating prompt:" e] /\
      error final = "Error generating prompt: " ++ message e).
Proof.
  intros t final. subst final t.
  destruct net as [[[|] code reason [v|e]]|e];
    rewrite ?generatePrompt_ok, ?generatePrompt_not_ok,
      ?generatePrompt_unparsed, ?generatePrompt_rejected;
    unfold trace, fst;
    try (right; eexists; split;
         [ reflexivity
         | first [ now rewrite final_caught_after_read
                 | now rewrite final_caught_at_fetch ] ]).
  rewrite final_ok. unfold settled_ok.
  destruct (has_valid_content v) as [[|]|e];
    [destruct (first_text v) as [text|e]|..].
  - left. split; [reflexivity | now left].
  - right. now exists e.
  - left. split; [reflexivity | now right].
  - right. now exists e.
Qed.

Lemma run_keeps_document (t : list event) (w : World) :
  Forall (fun e => match e with
                   | AppendChild _ | RemoveChild _ | SetTimeout _ _ => False
                   | _ => True
                   end) t ->
  children (run t w) = children w /\ timers (run t w) = timers w.
Proof.
  intros H. revert w. induction H as [|e t He _ IH]; intros w.
  - now split.
  - cbn [run fold_left]. fold (run t (step w e)).
    destruct (IH (step w e)) as [-> ->].
    destruct e as [[v|b|m|m]| | | | | | | | |]; try contradiction; now split.
Qed.

(** X10. A run of [generatePrompt] leaves the document and the timers
    alone: the children of the body and the pending timers are those of
    before, whatever the network does. *)
Theorem submit_keeps_document_and_timers
        (p : Params) (net : fetch_outcome) (w : World) :
  children (run (trace (generatePrompt p net)) w) = children w /\
  timers (run (trace (generatePrompt p net)) w) = timers w.
Proof.
  destruct (generatePrompt_awaiting p net) as (rest & -> & v & Hv & Hrest).
  unfold trace, fst. apply run_keeps_document.
  apply Forall_app. split; [repeat constructor|].
  constructor; [exact I|].
  assert (Hverdict : Forall (fun e => match e with
                   | AppendChild _ | RemoveChild _ | SetTimeout _ _ => False
                   | _ => True
                   end) (v ++ [closing])%list).
  { apply Forall_app. split; [|repeat constructor].
    destruct Hv as [[t ->]|[[m ->]|[e ->]]]; repeat constructor. }
  destruct Hrest as [-> | ->]; [constructor; [exact I|]|]; exact Hverdict.
Qed.

End SubmitMore.

(* ===================================================================== *)
(** * More on [copyToClipboard]                                           *)
(* ===================================================================== *)

Section CopyMore.
Import Text Js Form App Session.
Context {E : Engine}.

(** X11. With nothing to copy (an empty output, or any other falsy one)
    [copyToClipboard] does nothing at all: no element is made, no command
    runs, no notification is set, and the page is as it was. *)
Theorem copy_of_nothing_does_nothing
        (v : value) (fresh : nat) (copy : command_outcome) (w : World) :
  truthy v = false ->
  copyToClipboard v fresh copy = ([], Ok tt) /\
  run (trace (copyToClipboard v fresh copy)) w = w.
Proof.
  intros Hv. rewrite (copyToClipboard_nothing v fresh copy Hv). now split.
Qed.

(** The effects of [copyToClipboard] when the output has no string form:
    the element is made and never appended. *)
Lemma copyToClipboard_unconvertible
      (v : value) (fresh : nat) (copy : command_outcome) (e : exn) :
  truthy v = true -> to_string v = Throw e ->
  copyToClipboard v fresh copy
  = ([CreateElement (textarea fresh "");
      ConsoleError "Gagal menyalin:" e;
      Call (SetCopyMessage "Gagal menyalin prompt.")], Ok tt).
Proof.
  intros Hv Hs. unfold copyToClipboard. rewrite Hv.
  cbn -[to_string]. rewrite Hs. reflexivity.
Qed.

(** X12. [copyToClipboard] never throws to its caller and never touches
    the submission: whatever the output holds and whatever the copy
    command does, the generated output, the error message and the busy
    flag are those of before. *)
Theorem copy_never_throws_nor_touches_the_submission
        (v : value) (fresh : nat) (copy : command_outcome) (w : World) :
  let c := copyToClipboard v fresh copy in
  snd c = Ok tt /\
  generatedPrompt (app (run (trace c) w)) = generatedPrompt (app w) /\
  error (app (run (trace c) w)) = error (app w) /\
  isLoading (app (run (trace c) w)) = isLoading (app w).
Proof.
  intros c. subst c.
  destruct (truthy v) eqn:Hv.
  - destruct (to_string v) as [content|e] eqn:Hs.
    + destruct copy as [supported|e].
      * rewrite (copyToClipboard_returned _ _ _ _ Hv Hs). now repeat split.
      * rewrite (copyToClipboard_threw _ _ _ _ Hv Hs). now repeat split.
    + rewrite (copyToClipboard_unconvertible _ _ _ _ Hv Hs). now repeat split.
  - rewrite (copyToClipboard_nothing _ _ _ Hv). now repeat split.
Qed.

Lemma nth_error_after {A : Type} (l : list A) (x : A) :
  nth_error (l ++ [x]) (length l) = Some x.
Proof. rewrite nth_error_app2, Nat.sub_diag by lia. reflexivity. Qed.

(** X13. A copy that goes through and the timer it sets undo each other:
    the success notification shows until that timer fires, and once it has
    fired the page is the page of before the copy with the notification
    cleared: same output, same body, same pending timers. *)
Theorem copy_then_its_timer_restore_the_page
        (v : value) (fresh : nat) (supported : bool) (content : string)
        (w : World) :
  truthy v = true -> to_string v = Ok content ->
  ~ In fresh (map node_id (children w)) ->
  let copied := run (trace (copyToClipboard v fresh (Returned supported))) w in
  copyMessage (app copied) = "Prompt disalin!" /\
  nth_error (timers copied) (length (timers w))
  = Some (3000%N, SetCopyMessage "") /\
  fire (length (timers w)) copied
  = mkWorld (apply_setter (SetCopyMessage "") (app w))
            (children w) (timers w).
Proof.
  intros Hv Hs Hfresh copied.
  destruct (copy_returned_page v fresh supported content w Hv Hs Hfresh)
    as (Hchildren & Hnote & Htimers).
  fold copied in Hchildren, Hnote, Htimers.
  split; [exact Hnote|].
  split; [rewrite Htimers; apply nth_error_after|].
  unfold fire. rewrite Htimers, nth_error_after, Hchildren.
  rewrite firstn_app, Nat.sub_diag, firstn_all, app_nil_r.
  rewrite skipn_all2 by (rewrite length_app; cbn [length]; lia).
  rewrite app_nil_r. f_equal.
  subst copied. rewrite (copyToClipboard_returned _ _ _ _ Hv Hs).
  reflexivity.
Qed.

(** X14. The result of the copy command is not looked at: when
    [execCommand] returns [false] (nothing was copied) the effects are
    those of a copy that went through, and the success notification is
    shown all the same. *)
Theorem copy_reports_success_whatever_the_command_returns
        (v : value) (fresh : nat) (supported : bool) (content : string)
        (w : World) :
  truthy v = true -> to_string v = Ok content ->
  copyToClipboard v fresh (Returned supported)
  = copyToClipboard v fresh (Returned true) /\
  copyMessage
    (app (run (trace (copyToClipboard v fresh (Returned supported))) w))
  = "Prompt disalin!".
Proof.
  intros Hv Hs. rewrite !(copyToClipboard_returned _ _ _ _ Hv Hs).
  now split.
Qed.

Lemma normalize_without_cr (s : string) :
  holds_cr s = false -> normalize_newlines s = s.
Proof.
  induction s as [|c s IH]; [reflexivity|].
  cbn [holds_cr normalize_newlines]. intros H.
  apply orb_false_iff in H as [-> H]. now rewrite (IH H).
Qed.

(** X15. What the copy command is given to copy is the generated output as
    a textarea holds it: the one element selected when the command runs is
    the textarea that was assigned the string form of the output, and its
    value is that string with every carriage return and line feed pair,
    and every other carriage return, turned into a line feed.  It is the
    string form of the output itself when that holds no carriage return.
    This is so whether the command then returns or throws. *)
Theorem copy_offers_the_generated_text
        (v : value) (fresh : nat) (copy : command_outcome) (content : string) :
  truthy v = true -> to_string v = Ok content ->
  offered None (trace (copyToClipboard v fresh copy))
  = [normalize_newlines content] /\
  (holds_cr content = false ->
   offered None (trace (copyToClipboard v fresh copy)) = [content]).
Proof.
  intros Hv Hs.
  assert (H : offered None (trace (copyToClipboard v fresh copy))
              = [normalize_newlines content]).
  { destruct copy as [supported|e].
    - now rewrite (copyToClipboard_returned _ _ _ _ Hv Hs).
    - now rewrite (copyToClipboard_threw _ _ _ _ Hv Hs). }
  split; [exact H|].
  intros Hcr. now rewrite H, (normalize_without_cr _ Hcr).
Qed.

End CopyMore.

(* ===================================================================== *)
(** * The component over any sequence of events                           *)
(* ===================================================================== *)

Section SessionFacts.
Import Text Js Form App Session.
Context {E : Engine}.

Lemma awaiting_nonempty (rest : list event) : awaiting rest -> rest <> [].
Proof.
  intros (v & _ & [-> | ->]); [discriminate|].
  destruct v; discriminate.
Qed.

(** A verdict and the closing effect hold no [await]. *)
Lemma await_split_verdict (v : list event) :
  verdict v -> await_split (v ++ [closing]) = ((v ++ [closing])%list, []).
Proof. intros [[t ->]|[[m ->]|[e ->]]]; reflexivity. Qed.

(** The status fields once a verdict and the closing effect have run on
    the page of a suspended run. *)
Lemma at_rest_after_verdict (v : list event) (w : World) :
  verdict v -> app w = in_flight ->
  at_rest (app (run (v ++ [closing]) w)) /\
  timers (run (v ++ [closing]) w) = timers w.
Proof.
  intros [[t ->]|[[m ->]|[e ->]]] Hw; cbn; rewrite Hw; cbn;
    (split; [|reflexivity]); unfold at_rest, shows_banner, shows_output;
    cbn; repeat split; try discriminate; apply andb_false_r.
Qed.

Lemma clears_note_remove (i : nat) (l : list (N * setter)) :
  Forall clears_note l ->
  Forall clears_note (firstn i l ++ skipn (S i) l).
Proof.
  intros H. apply Forall_app. split.
  - rewrite <- (firstn_skipn i l) in H. now apply Forall_app in H.
  - rewrite <- (firstn_skipn (S i) l) in H. now apply Forall_app in H.
Qed.

(** A timer that fires on a consistent page runs a callback that clears
    the copy notification, if there is such a timer. *)
Lemma fire_clears_note (i : nat) (w : World) :
  Forall clears_note (timers w) ->
  fire i w = w \/
  fire i w = mkWorld (apply_setter (SetCopyMessage "") (app w)) (children w)
                     (firstn i (timers w) ++ skipn (S i) (timers w)).
Proof.
  intros H. unfold fire.
  destruct (nth_error (timers w) i) as [[delay callback]|] eqn:Hi;
    [right | now left].
  apply nth_error_In in Hi.
  rewrite Forall_forall in H. specialize (H _ Hi).
  unfold clears_note in H. cbn [snd] in H. now subst callback.
Qed.

Lemma consistent_start (body0 : list node) : consistent (start body0).
Proof.
  split; [constructor|]. left. split; [reflexivity|].
  unfold at_rest. repeat split. discriminate.
Qed.

(** Every event keeps the component consistent. *)
Lemma consistent_act (s : Session) (a : action) :
  consistent s -> consistent (act s a).
Proof.
  intros [Htimers Hruns]. destruct a as [f v| |net|i|fresh copy|i].
  - (* Edit *)
    split; [exact Htimers|]. exact Hruns.
  - (* AuthTimerFires *)
    unfold act. destruct (auth_timer s); [|now split].
    split; [exact Htimers|]. cbn.
    destruct Hruns as [Hrest | (rest & Hr & Haw & Hpage & _)];
      [now left | right; now exists rest].
  - (* ClickGenerate *)
    unfold act.
    destruct (submit_disabled (app (page s)) (isAuthReady s)) eqn:Hd;
      [now split|].
    unfold submit_disabled in Hd. apply orb_false_iff in Hd as [Hbusy Hready].
    apply negb_false_iff in Hready.
    destruct Hruns as [[Hr _] | (rest & _ & _ & Hpage & _)];
      [|rewrite Hpage in Hbusy; discriminate].
    destruct (generatePrompt_awaiting (form s) net) as (rest & Hrun & Haw).
    rewrite Hrun. unfold trace, fst.
    replace (await_split (opening ++ the_fetch (form s) :: rest))
      with ((opening ++ [the_fetch (form s)])%list, rest) by reflexivity.
    pose proof (awaiting_nonempty _ Haw) as Hne.
    split.
    + cbn [page]. rewrite run_app, run_opening. exact Htimers.
    + right. exists rest. cbn [runs page isAuthReady]. rewrite Hr.
      split; [destruct rest; [contradiction | reflexivity]|].
      split; [exact Haw|].
      split; [now rewrite run_app, run_opening | exact Hready].
  - (* Settles *)
    unfold act.
    destruct Hruns as [[Hr Hrest] | (rest & Hr & Haw & Hpage & Hready)].
    + rewrite Hr. destruct i; cbn [nth_error]; split; auto.
    + rewrite Hr. destruct i as [|i]; cbn [nth_error];
        [|destruct i; split; eauto 10].
      destruct Haw as (v & Hv & [-> | ->]).
      * (* suspended at the fetch: the body is read next *)
        cbn [await_split is_await].
        assert (Hne : (v ++ [closing])%list <> []) by (destruct v; discriminate).
        split; [exact Htimers|]. right. exists (v ++ [closing])%list.
        cbn [runs page isAuthReady run fold_left step].
        split; [unfold splice; cbn;
                destruct (v ++ [closing])%list; [contradiction | reflexivity]|].
        split; [exists v; split; [exact Hv | now right]|].
        split; [exact Hpage | exact Hready].
      * (* the verdict and the closing effect *)
        rewrite (await_split_verdict _ Hv).
        destruct (at_rest_after_verdict v (page s) Hv Hpage) as [Hat Ht].
        split; [cbn [page]; now rewrite Ht|].
        left. now split.
  - (* ClickCopy *)
    unfold act. destruct (shows_output (app (page s))) eqn:Ho; [|now split].
    destruct Hruns as [[Hr (Hbusy & Hone & Hnote)]
                      | (rest & _ & _ & Hpage & _)];
      [|rewrite Hpage in Ho; discriminate].
    unfold shows_output in Ho.
    assert (Hkeep : forall m,
               at_rest (apply_setter (SetCopyMessage m) (app (page s)))).
    { intros m. unfold at_rest, shows_banner, shows_output in *.
      cbn. now rewrite Ho in *. }
    destruct (to_string (generatedPrompt (app (page s)))) as [content|e] eqn:Hs.
    + destruct copy as [supported|e].
      * rewrite (copyToClipboard_returned _ _ _ _ Ho Hs). cbn. split.
        -- apply Forall_app. split; [exact Htimers | now repeat constructor].
        -- left. split; [exact Hr | apply Hkeep].
      * rewrite (copyToClipboard_threw _ _ _ _ Ho Hs). cbn. split.
        -- exact Htimers.
        -- left. split; [exact Hr | apply Hkeep].
    + rewrite (copyToClipboard_unconvertible _ _ _ _ Ho Hs). cbn. split.
      * exact Htimers.
      * left. split; [exact Hr | apply Hkeep].
  - (* TimerFires *)
    unfold act. cbn [page runs isAuthReady].
    destruct (fire_clears_note i (page s) Htimers) as [-> | ->];
      [now split|].
    split; [now apply clears_note_remove|]. cbn [app].
    destruct Hruns as [[Hr (Hbusy & Hone & Hnote)]
                      | (rest & Hr & Haw & Hpage & Hready)].
    + left. split; [exact Hr|].
      unfold at_rest, shows_banner, shows_output in *. cbn.
      repeat split; try assumption. discriminate.
    + right. exists rest. repeat split; try assumption.
      now rewrite Hpage.
Qed.

Lemma consistent_from (events : list action) (s : Session) :
  consistent s -> consistent (fold_left act events s).
Proof.
  revert s. induction events as [|a events IH]; intros s Hs; [exact Hs|].
  cbn [fold_left]. apply IH. now apply consistent_act.
Qed.

(** The component is consistent after every sequence of events. *)
Lemma consistent_session (body0 : list node) (events : list action) :
  consistent (session body0 events).
Proof. apply consistent_from, consistent_start. Qed.

(** X16. Submissions never overlap: after any sequence of edits, clicks,
    settlements and timers, at most one run of [generatePrompt] is
    suspended, and the busy flag is set exactly when one is.  The disabled
    button of JSX line 327 is what keeps a second click out. *)
Theorem one_submission_at_a_time (body0 : list node) (events : list action) :
  let s := session body0 events in
  (length (runs s) <= 1)%nat /\
  (isLoading (app (page s)) = true <-> runs s <> []).
Proof.
  intros s. subst s.
  destruct (consistent_session body0 events)
    as [_ [[Hr (Hbusy & _)] | (rest & Hr & _ & Hpage & _)]];
    rewrite Hr.
  - split; [cbn; lia|]. rewrite Hbusy. split; [discriminate | congruence].
  - split; [cbn; lia|]. rewrite Hpage. split; [discriminate | reflexivity].
Qed.

(** X17. The page never shows the error banner and the output area at
    once, after any sequence of events: a failed attempt hides the output
    of an earlier success, and a success after a failure hides the
    banner. *)
Theorem banner_and_output_never_together
        (body0 : list node) (events : list action) :
  let st := app (page (session body0 events)) in
  shows_banner st && shows_output st = false.
Proof.
  intros st. subst st.
  destruct (consistent_session body0 events)
    as [_ [[_ (_ & Hone & _)] | (rest & _ & _ & Hpage & _)]].
  - exact Hone.
  - now rewrite Hpage.
Qed.

(** X18. A copy notification is never set out of sight: after any
    sequence of events, whenever [copyMessage] is not empty the output
    area that renders it is there, so the notification is on the page. *)
Theorem copy_note_is_always_on_the_page
        (body0 : list node) (events : list action) :
  let st := app (page (session body0 events)) in
  shows_copy_note st = nonempty (copyMessage st).
Proof.
  intros st. subst st. unfold shows_copy_note.
  destruct (consistent_session body0 events)
    as [_ [[_ (_ & _ & Hnote)] | (rest & _ & _ & Hpage & _)]].
  - destruct (nonempty (copyMessage (app (page (session body0 events)))));
      [now rewrite Hnote | apply andb_false_r].
  - now rewrite Hpage.
Qed.

(** X19. While a submission is in flight the page shows nothing of
    before: output, error and copy notification are empty, the button is
    disabled and carries the busy label; this holds at every moment
    between the click and the settlement, whatever else happens. *)
Theorem page_is_blank_while_in_flight
        (body0 : list node) (events : list action) :
  runs (session body0 events) <> [] ->
  let s := session body0 events in
  app (page s) = mkState (VStr "") true "" "" /\
  submit_disabled (app (page s)) (isAuthReady s) = true /\
  submit_label (app (page s)) = "Membuat Prompt...".
Proof.
  intros Hruns s. subst s.
  destruct (consistent_session body0 events)
    as [_ [[Hr _] | (rest & _ & _ & Hpage & _)]];
    [contradiction|].
  rewrite Hpage. now repeat split.
Qed.

(** X20. A timer can only clear the copy notification: after any sequence
    of events, whichever pending timer fires, the output, the error and
    the busy flag stay as they are, and the notification is empty
    afterwards if there was such a timer. *)
Theorem a_timer_only_clears_the_note
        (body0 : list node) (events : list action) (i : nat) :
  let w := page (session body0 events) in
  generatedPrompt (app (fire i w)) = generatedPrompt (app w) /\
  error (app (fire i w)) = error (app w) /\
  isLoading (app (fire i w)) = isLoading (app w) /\
  ((i < length (timers w))%nat -> copyMessage (app (fire i w)) = "").
Proof.
  intros w. subst w.
  destruct (consistent_session body0 events) as [Htimers _].
  set (w := page (session body0 events)) in *.
  destruct (fire_clears_note i w Htimers) as [Hsame | Hfired].
  - rewrite Hsame. repeat split. intros Hi.
    unfold fire in Hsame.
    destruct (nth_error (timers w) i) as [[delay callback]|] eqn:Hn.
    + apply (f_equal (fun x => length (timers x))) in Hsame.
      cbn [timers] in Hsame. rewrite length_app, length_firstn, length_skipn in Hsame.
      lia.
    + apply nth_error_None in Hn. lia.
  - rewrite Hfired. now repeat split.
Qed.

(** The component before the readiness timer of lines 34-36 has fired. *)
Lemma idle_until_ready (events : list action) (s : Session) :
  ~ In AuthTimerFires events ->
  isAuthReady s = false -> runs s = [] -> history s = [] ->
  timers (page s) = [] -> shows_output (app (page s)) = false ->
  let s' := fold_left act events s in
  page s' = page s /\ history s' = [] /\ runs s' = [].
Proof.
  revert s. induction events as [|a events IH];
    intros s Hno Hready Hruns Hhist Htimers Hout; [now repeat split|].
  cbn [fold_left].
  assert (Hact : page (act s a) = page s /\ isAuthReady (act s a) = false /\
                 runs (act s a) = [] /\ history (act s a) = []).
  { destruct a as [f v| |net|i|fresh copy|i]; unfold act.
    - now repeat split.
    - exfalso. apply Hno. now left.
    - unfold submit_disabled. rewrite Hready, orb_true_r. now repeat split.
    - rewrite Hruns. destruct i; now repeat split.
    - rewrite Hout. now repeat split.
    - unfold fire. rewrite Htimers. destruct i; now repeat split. }
  destruct Hact as (Hp & Hr & Hru & Hh).
  assert (Hno' : ~ In AuthTimerFires events)
    by (intros Hin; apply Hno; now right).
  specialize (IH (act s a) Hno' Hr Hru Hh).
  rewrite Hp in IH. exact (IH Htimers Hout).
Qed.

(** X21. Nothing is sent before the component is ready: until the timer
    that [useEffect] sets at mounting (lines 29-38) has fired, a click on
    the button starts no run, so no request goes out and the page stays as
    it was mounted, whatever is typed and clicked. *)
Theorem nothing_is_sent_before_ready
        (body0 : list node) (events : list action) :
  ~ In AuthTimerFires events ->
  let s := session body0 events in
  history s = [] /\ runs s = [] /\
  page s = mkWorld initial_state body0 [].
Proof.
  intros Hno s. subst s. unfold session.
  destruct (idle_until_ready events (start body0) Hno)
    as (Hp & Hh & Hr); try reflexivity.
  now rewrite Hp.
Qed.

(** X22. A submission in flight is over after at most two settlements
    (the promise of [fetch], then the promise of [response.json()]): when
    the page it leaves can be rendered, that is, when the output it set, if
    any, has a string form, no run is suspended, the busy flag is clear
    and the button is enabled again. *)
Theorem a_submission_settles_in_two_steps
        (body0 : list node) (events : list action) :
  runs (session body0 events) <> [] ->
  let s := act (act (session body0 events) (Settles 0)) (Settles 0) in
  renderable (app (page s)) = true ->
  runs s = [] /\
  isLoading (app (page s)) = false /\
  submit_disabled (app (page s)) (isAuthReady s) = false.
Proof.
  intros Hruns s _.
  assert (Hdone : forall s0 : Session,
             consistent s0 -> isAuthReady s0 = true -> runs s0 = [] ->
             runs s0 = [] /\ isLoading (app (page s0)) = false /\
             submit_disabled (app (page s0)) (isAuthReady s0) = false).
  { intros s0 [_ [[_ (Hbusy & _)] | (rest & Hr & _)]] Hready Hr0.
    - unfold submit_disabled. now rewrite Hbusy, Hready.
    - rewrite Hr0 in Hr. discriminate. }
  pose proof (consistent_session body0 events) as Hs.
  set (s0 := session body0 events) in *.
  destruct Hs as [Htimers [[Hr _] | (rest & Hr & Haw & Hpage & Hready)]];
    [contradiction|].
  assert (Hs1 : consistent (act s0 (Settles 0))).
  { apply consistent_act. split; [exact Htimers|]. right. now exists rest. }
  assert (Hready1 : isAuthReady (act s0 (Settles 0)) = true).
  { unfold act. rewrite Hr. cbn [nth_error].
    destruct (await_split rest). exact Hready. }
  destruct Haw as (v & Hv & [Hrest | Hrest]).
  - (* two settlements *)
    assert (Hr1 : runs (act s0 (Settles 0)) = [(v ++ [closing])%list]).
    { unfold act. rewrite Hr, Hrest. cbn.
      destruct v; reflexivity. }
    subst s. apply Hdone.
    + now apply consistent_act.
    + unfold act at 1. rewrite Hr1. cbn [nth_error].
      destruct (await_split (v ++ [closing])). exact Hready1.
    + unfold act at 1. rewrite Hr1. cbn [nth_error].
      now rewrite (await_split_verdict _ Hv).
  - (* one settlement, and a second that finds nothing to do *)
    assert (Hr1 : runs (act s0 (Settles 0)) = []).
    { unfold act. rewrite Hr, Hrest. cbn [nth_error].
      now rewrite (await_split_verdict _ Hv). }
    assert (Hsame : act (act s0 (Settles 0)) (Settles 0) = act s0 (Settles 0)).
    { unfold act at 1. now rewrite Hr1. }
    subst s. rewrite Hsame. now apply Hdone.
Qed.

End SessionFacts.

(* ===================================================================== *)
(** * Requests over any sequence of events                                *)
(* ===================================================================== *)

Section NoRetry.
Import Text Js Form App Session.
Context {E : Engine}.

Lemma copy_sends_nothing (v : value) (fresh : nat) (copy : command_outcome) :
  filter is_fetch (trace (copyToClipboard v fresh copy)) = [].
Proof.
  destruct (truthy v) eqn:Hv.
  - destruct (to_string v) as [content|e] eqn:Hs.
    + destruct copy as [supported|e].
      * now rewrite (copyToClipboard_returned _ _ _ _ Hv Hs).
      * now rewrite (copyToClipboard_threw _ _ _ _ Hv Hs).
    + now rewrite (copyToClipboard_unconvertible _ _ _ _ Hv Hs).
  - now rewrite (copyToClipboard_nothing _ _ _ Hv).
Qed.

(** A suspended run has no [fetch] left to do. *)
Lemma awaiting_sends_nothing (rest : list event) :
  awaiting rest -> filter is_fetch (fst (await_split rest)) = [].
Proof.
  intros (v & Hv & [-> | ->]); [reflexivity|].
  rewrite (await_split_verdict _ Hv). cbn [fst].
  destruct Hv as [[t ->]|[[m ->]|[e ->]]]; reflexivity.
Qed.

(** One event sends at most one request, and only a click sends one. *)
Lemma act_sends (s : Session) (a : action) :
  consistent s ->
  (length (filter is_fetch (history (act s a)))
   <= length (filter is_fetch (history s)) + clicks [a])%nat.
Proof.
  intros [_ Hruns]. destruct a as [f v| |net|i|fresh copy|i];
    unfold act, clicks; cbn [filter length].
  - cbn [history]. lia.
  - destruct (auth_timer s); cbn [history]; lia.
  - destruct (submit_disabled (app (page s)) (isAuthReady s)); [lia|].
    destruct (generatePrompt_awaiting (form s) net) as (rest & Hrun & _).
    rewrite Hrun. unfold trace, fst.
    replace (await_split (opening ++ the_fetch (form s) :: rest))
      with ((opening ++ [the_fetch (form s)])%list, rest) by reflexivity.
    cbn [history]. rewrite filter_app, length_app. cbn. lia.
  - destruct Hruns as [[Hr _] | (rest & Hr & Haw & _)]; rewrite Hr.
    + destruct i; cbn [nth_error]; lia.
    + destruct i as [|i]; cbn [nth_error]; [|destruct i; cbn [nth_error]; lia].
      pose proof (awaiting_sends_nothing _ Haw) as Hnone.
      destruct (await_split rest) as [now later]. cbn [fst] in Hnone.
      cbn [history]. rewrite filter_app, Hnone, app_nil_r. lia.
  - destruct (shows_output (app (page s))); [|lia].
    cbn [history]. rewrite filter_app, copy_sends_nothing, app_nil_r. lia.
  - cbn [history]. lia.
Qed.

Lemma sends_from (events : list action) (s : Session) :
  consistent s ->
  (length (filter is_fetch (history (fold_left act events s)))
   <= length (filter is_fetch (history s)) + clicks events)%nat.
Proof.
  revert s. induction events as [|a events IH]; intros s Hs.
  - cbn. lia.
  - cbn [fold_left].
    specialize (IH (act s a) (consistent_act s a Hs)).
    pose proof (act_sends s a Hs) as Ha.
    change (clicks (a :: events)) with (clicks ([a] ++ events)).
    unfold clicks in *. rewrite filter_app, length_app. lia.
Qed.

(** X23. The component sends a request only for a click and never
    retries: after any sequence of events the number of requests sent is
    at most the number of clicks on the submit button. *)
Theorem no_request_without_a_click
        (body0 : list node) (events : list action) :
  (length (filter is_fetch (history (session body0 events)))
   <= clicks events)%nat.
Proof.
  pose proof (sends_from events (start body0) (consistent_start body0)) as H.
  exact H.
Qed.

End NoRetry.

(* ===================================================================== *)
(** * The further theorems at work on closed inputs                       *)
(* ===================================================================== *)

Section ClosedMore.
Import Text Js Form App Sample Session SampleMore.

(** X2 at work: the scene description left empty, and typed in as its own
    fallback phrase. *)
Lemma fallback_typed_in_reads_as_empty :
  promptText (set_field SceneDescription "" filled_form)
  = promptText (set_field SceneDescription "A captivating and dynamic scene"
                          filled_form).
Proof.
  apply (empty_field_reads_as_its_fallback SceneDescription). reflexivity.
Defined.

(** X7 at work: a 429 whose message is the empty string. *)
Lemma failed_response_429_empty_message :
  status_of (app (run (trace (generatePrompt Form.initial
                                (failure 429 "Too Many Requests"
                                         body_empty_message)))
                      page_with_output))
  = Failed "Error generating prompt: API error: 429 Too Many Requests - Unknown error".
Proof.
  apply (failed_response_with_falsy_message Form.initial page_with_output 429
           "Too Many Requests" body_empty_message (VStr "")).
  - now exists [("error", VObj [("message", VStr "")])],
               [("message", VStr "")].
  - reflexivity.
Defined.

(** X8 at work: the answer [{"candidates":[{"content":{"parts":[{}]}}]}]
    over a page that showed an earlier output. *)
Lemma part_without_text_on_a_page_with_output :
  app (run (trace (generatePrompt Form.initial
                     (success body_part_without_text))) page_with_output)
  = mkState VUndefined false "" "" /\
  shows_output
    (app (run (trace (generatePrompt Form.initial
                        (success body_part_without_text))) page_with_output))
  = false /\
  shows_banner
    (app (run (trace (generatePrompt Form.initial
                        (success body_part_without_text))) page_with_output))
  = false.
Proof.
  apply (first_part_without_text_shows_nothing Form.initial page_with_output
           200 "OK" body_part_without_text []).
  - now exists
      [("candidates",
        VArr [VObj [("content", VObj [("parts", VArr [VObj []])])]])],
      [("content", VObj [("parts", VArr [VObj []])])],
      [], [("parts", VArr [VObj []])], [].
  - reflexivity.
Defined.

(** X11 at work: the empty output. *)
Lemma copy_of_the_empty_output :
  copyToClipboard (VStr "") 1 copy_refused = ([], Ok tt) /\
  run (trace (copyToClipboard (VStr "") 1 copy_refused)) page_at_rest
  = page_at_rest.
Proof.
  apply (copy_of_nothing_does_nothing (VStr "") 1 copy_refused page_at_rest).
  reflexivity.
Defined.

(** X13 at work: a copy on the page that shows an output, and its timer. *)
Lemma copy_then_timer_on_the_page_with_output :
  copyMessage
    (app (run (trace (copyToClipboard (VStr "A dragon at night.") 1
                                      (Returned true)))
              page_with_output))
  = "Prompt disalin!" /\
  fire 0 (run (trace (copyToClipboard (VStr "A dragon at night.") 1
                                      (Returned true)))
              page_with_output)
  = page_with_output.
Proof.
  destruct (copy_then_its_timer_restore_the_page
              (VStr "A dragon at night.") 1 true "A dragon at night."
              page_with_output eq_refl eq_refl)
    as (Hnote & _ & Hfire).
  - intros [H|[]]. discriminate H.
  - split; [exact Hnote | exact Hfire].
Defined.

(** X14 at work: the command returns [false], and success is reported. *)
Lemma copy_unsupported_reports_success :
  copyMessage
    (app (run (trace (copyToClipboard (VStr "A dragon at night.") 1
                                      (Returned false)))
              page_with_output))
  = "Prompt disalin!".
Proof.
  apply (copy_reports_success_whatever_the_command_returns
           (VStr "A dragon at night.") 1 false "A dragon at night."
           page_with_output); reflexivity.
Defined.

(** X15 at work: the text put up for copying when the command is
    refused, for an output of one line and for an output of two lines
    parted by a carriage return and a line feed. *)
Lemma copy_refused_was_offered_the_output :
  offered None (trace (copyToClipboard (VStr "A dragon at night.") 1
                                       copy_refused))
  = ["A dragon at night."] /\
  offered None
    (trace (copyToClipboard
              (VStr (String "A"%char (String "013"%char
                       (String "010"%char (String "B"%char EmptyString)))))
              1 copy_refused))
  = [String "A"%char (String "010"%char (String "B"%char EmptyString))].
Proof.
  split.
  - apply (copy_offers_the_generated_text (VStr "A dragon at night.") 1
             copy_refused "A dragon at night."); reflexivity.
  - apply (copy_offers_the_generated_text
             (VStr (String "A"%char (String "013"%char
                      (String "010"%char (String "B"%char EmptyString)))))
             1 copy_refused
             (String "A"%char (String "013"%char
                (String "010"%char (String "B"%char EmptyString)))));
      reflexivity.
Defined.

(** X19 at work: right after the click. *)
Lemma page_right_after_the_click :
  app (page (session [] ready_then_click)) = mkState (VStr "") true "" "" /\
  submit_disabled (app (page (session [] ready_then_click)))
                  (isAuthReady (session [] ready_then_click)) = true /\
  submit_label (app (page (session [] ready_then_click)))
  = "Membuat Prompt...".
Proof.
  apply (page_is_blank_while_in_flight [] ready_then_click).
  vm_compute. discriminate.
Defined.

(** X21 at work: typing and clicking before the readiness timer fires. *)
Lemma click_before_ready_sends_nothing :
  history (session [] [Edit SceneDescription "A fox in the snow";
                       ClickGenerate (success body_text_X)]) = [] /\
  runs (session [] [Edit SceneDescription "A fox in the snow";
                    ClickGenerate (success body_text_X)]) = [] /\
  page (session [] [Edit SceneDescription "A fox in the snow";
                    ClickGenerate (success body_text_X)])
  = mkWorld initial_state [] [].
Proof.
  apply (nothing_is_sent_before_ready []
           [Edit SceneDescription "A fox in the snow";
            ClickGenerate (success body_text_X)]).
  intros [H|[H|[]]]; discriminate H.
Defined.

(** X22 at work: the click, then the two settlements. *)
Lemma click_settles_in_two_steps :
  runs (act (act (session [] ready_then_click) (Settles 0)) (Settles 0)) = [] /\
  isLoading
    (app (page (act (act (session [] ready_then_click) (Settles 0))
                    (Settles 0)))) = false /\
  submit_disabled
    (app (page (act (act (session [] ready_then_click) (Settles 0))
                    (Settles 0))))
    (isAuthReady (act (act (session [] ready_then_click) (Settles 0))
                      (Settles 0))) = false.
Proof.
  apply (a_submission_settles_in_two_steps [] ready_then_click).
  - vm_compute. discriminate.
  - reflexivity.
Defined.

End ClosedMore.
